(** * Hellas Grid Monitor: the data-fetch-and-derive pipeline

    A shallow embedding of [hellas_grid_monitor.py] (a Streamlit script):
    the time-range computation of the five fetch functions, the fetch
    functions with their [try]/[except] blocks and [st.cache_data]
    decorators, the snapshot selection [dropna().iloc[-1]], the derived
    metrics of the sidebar, the weather status mapping, and the order in
    which the script runs them.

    Conventions.
    - A Python exception is a value [PyExn cls msg]; code that may raise
      returns a [result].
    - A pandas float column holds IEEE numbers with [nan] as the missing
      marker.  The arithmetic the script does on them is written once,
      over the interface [Float64], and read at two instances: [float],
      Rocq's binary64, which is the arithmetic of the script, and [xq],
      exact rationals extended with [+inf], [-inf] and [nan] (no
      rounding, no overflow, no signed zero), on which the formulas are
      read as formulas.  A statement that bounds a computed number, or
      says that a conversion does not raise, is made on binary64 or for
      every instance.
    - Instants are seconds since the Unix epoch (UTC); every timestamp of
      the script carries [tz='Europe/Athens']. *)

From Stdlib Require Import ZArith QArith Qround Lqa Lia List Floats Uint63.
From stdpp Require Import gmap strings pretty.
Import ListNotations.

Local Open Scope string_scope.
Local Open Scope Z_scope.

(* ===================================================================== *)
(** ** Python outcomes *)
(* ===================================================================== *)

Module Py.

Record exn := PyExn { exn_class : string; exn_msg : string }.

Inductive result (A : Type) : Type :=
| Return (a : A)
| Raise (e : exn).
Arguments Return {A} a.
Arguments Raise {A} e.

Definition bind {A B} (m : result A) (k : A -> result B) : result B :=
  match m with
  | Return a => k a
  | Raise e => Raise e
  end.

Definition raises {A} (m : result A) : bool :=
  match m with Return _ => false | Raise _ => true end.

Definition ValueError := PyExn "ValueError".
Definition OverflowError := PyExn "OverflowError".
Definition IndexError := PyExn "IndexError".
Definition AttributeError := PyExn "AttributeError".
Definition StreamlitValueOutOfRangeError := PyExn "StreamlitValueOutOfRangeError".

End Py.
Export Py.

#[export] Instance result_ret : MRet result := @Return.
#[export] Instance result_bind : MBind result := fun A B k m => Py.bind m k.

(* ===================================================================== *)
(** ** Numbers: the float64 operations the script uses *)
(* ===================================================================== *)

(** [fadd], [fmul], [fdiv] are numpy's scalar [+], [*], [/] (a division by
    zero gives [inf] or [nan] and a warning, never an exception); [fltb]
    is [<] (false as soon as one side is [nan]);
    [of_int] is the promotion of a Python [int] literal; [isna] is
    pandas' missing-value test; [py_int] is [int(x)]. *)
Class Float64 (F : Type) := {
  fadd : F -> F -> F;
  fmul : F -> F -> F;
  fdiv : F -> F -> F;
  fltb : F -> F -> bool;
  of_int : Z -> F;
  isna : F -> bool;
  py_int : F -> result Z
}.

(** *** Exact instance *)

Inductive xq : Type :=
| Fin (q : Q)
| PInf
| NInf
| NaN.

Module Xq.

Definition sgn (q : Q) : Z := Z.sgn (Qnum q).

Definition inf_of_sign (s : Z) : xq :=
  match s with
  | Z0 => NaN
  | Zpos _ => PInf
  | Zneg _ => NInf
  end.

Definition sign_of (x : xq) : Z :=
  match x with
  | Fin q => sgn q
  | PInf => 1
  | NInf => -1
  | NaN => 0
  end.

Definition add (x y : xq) : xq :=
  match x, y with
  | NaN, _ | _, NaN => NaN
  | Fin a, Fin b => Fin (a + b)
  | PInf, NInf | NInf, PInf => NaN
  | PInf, _ | _, PInf => PInf
  | NInf, _ | _, NInf => NInf
  end.

Definition mul (x y : xq) : xq :=
  match x, y with
  | NaN, _ | _, NaN => NaN
  | Fin a, Fin b => Fin (a * b)
  | _, _ => inf_of_sign (sign_of x * sign_of y)
  end.

Definition div (x y : xq) : xq :=
  match x, y with
  | NaN, _ | _, NaN => NaN
  | Fin a, Fin b =>
      if Qeq_bool b 0 then inf_of_sign (sgn a) else Fin (a / b)
  | Fin _, _ => Fin 0
  | _, Fin b => if Qeq_bool b 0 then x else inf_of_sign (sign_of x * sgn b)
  | _, _ => NaN
  end.

Definition ltb (x y : xq) : bool :=
  match x, y with
  | NaN, _ | _, NaN => false
  | Fin a, Fin b => negb (Qle_bool b a)
  | NInf, NInf | PInf, _ | _, NInf => false
  | NInf, _ | _, PInf => true
  end.

Definition is_nan (x : xq) : bool :=
  match x with NaN => true | _ => false end.

(** [int(x)]: truncation toward zero; [int(nan)] raises [ValueError],
    [int(inf)] raises [OverflowError]. *)
Definition to_int (x : xq) : result Z :=
  match x with
  | Fin q => Return (Z.quot (Qnum q) (Zpos (Qden q)))
  | PInf | NInf => Raise (OverflowError "cannot convert float infinity to integer")
  | NaN => Raise (ValueError "cannot convert float NaN to integer")
  end.

Definition eq (x y : xq) : Prop :=
  match x, y with
  | Fin a, Fin b => (a == b)%Q
  | PInf, PInf | NInf, NInf | NaN, NaN => True
  | _, _ => False
  end.

End Xq.

#[export] Instance xq_float64 : Float64 xq := {
  fadd := Xq.add;
  fmul := Xq.mul;
  fdiv := Xq.div;
  fltb := Xq.ltb;
  of_int := fun z => Fin (inject_Z z);
  isna := Xq.is_nan;
  py_int := Xq.to_int
}.

(** *** binary64 instance *)

Module B64.

Definition of_Z (z : Z) : float :=
  match z with
  | Z0 => PrimFloat.of_uint63 (Uint63.of_Z 0)
  | Zpos _ => PrimFloat.of_uint63 (Uint63.of_Z z)
  | Zneg p => PrimFloat.opp (PrimFloat.of_uint63 (Uint63.of_Z (Zpos p)))
  end.

Definition to_int (x : float) : result Z :=
  match Prim2SF x with
  | S754_zero _ => Return 0
  | S754_infinity _ => Raise (OverflowError "cannot convert float infinity to integer")
  | S754_nan => Raise (ValueError "cannot convert float NaN to integer")
  | S754_finite s m e =>
      let mag := if (0 <=? e)%Z then Z.shiftl (Zpos m) e else Z.shiftr (Zpos m) (- e) in
      Return (if s then - mag else mag)
  end.

End B64.

#[export] Instance b64_float64 : Float64 float := {
  fadd := PrimFloat.add;
  fmul := PrimFloat.mul;
  fdiv := PrimFloat.div;
  fltb := PrimFloat.ltb;
  of_int := B64.of_Z;
  isna := PrimFloat.is_nan;
  py_int := B64.to_int
}.

(* ===================================================================== *)
(** ** Frames: the pandas objects the script handles *)
(* ===================================================================== *)

(** Seconds since the epoch; the zone is always Europe/Athens. *)
Definition Timestamp := Z.

(** A [DataFrame] indexed by time: column labels and, per index entry, one
    cell per column.  A missing cell is a [nan] cell. *)
Record DataFrame (F : Type) := mkFrame {
  columns : list string;
  rows : list (Timestamp * list F)
}.
Arguments mkFrame {F} columns rows.
Arguments columns {F} d.
Arguments rows {F} d.

Section Frames.
Context {F : Type} `{Float64 F}.

(** [pd.DataFrame()] *)
Definition empty_frame : DataFrame F := mkFrame [] [].

(** [df.empty] *)
Definition empty (df : DataFrame F) : bool :=
  match columns df, rows df with
  | _ :: _, _ :: _ => false
  | _, _ => true
  end.

Definition row_complete (r : Timestamp * list F) : bool :=
  forallb (fun x => negb (isna x)) (snd r).

(** [df.dropna()]: drops every row with at least one missing cell. *)
Definition dropna (df : DataFrame F) : DataFrame F :=
  mkFrame (columns df) (List.filter row_complete (rows df)).

(** [df.iloc[-1]] *)
Definition iloc_last (df : DataFrame F) : result (Timestamp * list F) :=
  match last (rows df) with
  | Some r => Return r
  | None => Raise (IndexError "single positional indexer is out-of-bounds")
  end.

(** [last_row.rename_axis('Source').reset_index(name='MW')]: one row per
    source label, columns [Source] and [MW]. *)
Definition source_mw (cols : list string) (r : Timestamp * list F)
  : list (string * F) :=
  combine cols (snd r).

(** [series.sum()] (pandas skips missing values; the sum of nothing is
    0).  The values are added from left to right.  numpy adds a longer
    column in blocks; that gives the same float whenever no addition
    rounds, as in exact arithmetic and on the whole megawatts of the
    binary64 statements (lemma [sum_in_any_order]), and can differ in the
    last bits otherwise. *)
Definition series_sum (l : list F) : F :=
  fold_left fadd (List.filter (fun x => negb (isna x)) l) (of_int 0).

(** [df.iloc[:, 0]]: the first column, as a series indexed by time. *)
Definition first_column (df : DataFrame F) : list (Timestamp * F) :=
  flat_map (fun r => match snd r with x :: _ => [(fst r, x)] | [] => [] end) (rows df).

(** The entry a scan of the series settles on when it skips the missing
    values and moves on whenever [better current candidate] holds: the
    first of the best entries, [None] for a series with no value. *)
Definition extreme (better : F -> F -> bool) (series : list (Timestamp * F))
  : option (Timestamp * F) :=
  fold_left (fun best r =>
               match best with
               | None => Some r
               | Some b => if better (snd b) (snd r) then Some r else Some b
               end)
            (List.filter (fun r => negb (isna (snd r))) series) None.

(** [series.max()], [series.min()]: missing values are skipped; [None]
    stands for the [nan] of a series with no value. *)
Definition series_max (series : list (Timestamp * F)) : option F :=
  snd <$> extreme (fun best x => fltb best x) series.
Definition series_min (series : list (Timestamp * F)) : option F :=
  snd <$> extreme (fun best x => fltb x best) series.

(** [series.idxmax().strftime('%H:%M')], [series.idxmin().strftime('%H:%M')]:
    the time of the first maximum (minimum).  On a series with no value
    pandas 2 returns [nan] from [idxmax], on which [.strftime] raises
    [AttributeError] (pandas 3 raises [ValueError] in [idxmax] itself).
    The time is kept as the instant. *)
Definition idxmax (series : list (Timestamp * F)) : result Timestamp :=
  match extreme (fun best x => fltb best x) series with
  | Some r => Return (fst r)
  | None => Raise (AttributeError "'float' object has no attribute 'strftime'")
  end.
Definition idxmin (series : list (Timestamp * F)) : result Timestamp :=
  match extreme (fun best x => fltb x best) series with
  | Some r => Return (fst r)
  | None => Raise (AttributeError "'float' object has no attribute 'strftime'")
  end.

(** [latest_value[mask]['MW'].sum()] *)
Definition mw_where (mask : string -> bool) (latest_value : list (string * F)) : F :=
  series_sum (map snd (List.filter (fun r => mask (fst r)) latest_value)).

(** [latest_value['Source'].isin(labels)] and [latest_value['Source']==label] *)
Definition isin (labels : list string) (s : string) : bool :=
  existsb (String.eqb s) labels.
Definition is_label (label : string) (s : string) : bool :=
  String.eqb s label.

(** *** The derived metrics (script lines 210-224) *)

Definition renewable_generation : list string :=
  ["Wind Onshore"; "Solar"; "Hydro Water Reservoir"; "Biomass"].

Record DerivedMetrics := mkMetrics {
  total_generation_MW : F;
  renewable_generation_MW : F;
  renewable_percentage : F;
  lignite_generation_MW : F;
  lignite_percentage : F;
  natural_gas_generation_MW : F;
  natural_gas_percentage : F;
  co2_emissions : F;
  co2_emissions_percentage : F
}.

Definition derive_metrics (latest_value : list (string * F)) : DerivedMetrics :=
  let total := series_sum (map snd latest_value) in
  let renewable := mw_where (isin renewable_generation) latest_value in
  let renewable_pct := fmul (fdiv renewable total) (of_int 100) in
  let lignite := mw_where (is_label "Fossil Brown coal/Lignite") latest_value in
  let lignite_pct := fmul (fdiv lignite total) (of_int 100) in
  let gas := mw_where (is_label "Fossil Gas") latest_value in
  let gas_pct := fmul (fdiv gas total) (of_int 100) in
  let co2 := fdiv (fadd (fmul lignite (of_int 1000)) (fmul gas (of_int 400))) total in
  let co2_pct := fmul (fdiv co2 (of_int 1000)) (of_int 100) in
  mkMetrics total renewable renewable_pct lignite lignite_pct gas gas_pct co2 co2_pct.

End Frames.
Arguments DerivedMetrics F : clear implicits.

(* ===================================================================== *)
(** ** Calendar dates, Europe/Athens, and the time range of a fetch *)
(* ===================================================================== *)

(** A [datetime.date], as [st.date_input] returns it. *)
Record date := mkDate { year : Z; month : Z; day : Z }.

#[export] Instance date_eq_dec : EqDecision date.
Proof. solve_decision. Defined.

#[export] Instance date_countable : Countable date :=
  inj_countable' (fun d => (year d, month d, day d))
                 (fun t => mkDate t.1.1 t.1.2 t.2)
                 (fun d => match d with mkDate _ _ _ => eq_refl end).

Module Calendar.

(** Days from 1970-01-01 to the given civil date (proleptic Gregorian). *)
Definition days_from_civil (d : date) : Z :=
  let y := if month d <=? 2 then year d - 1 else year d in
  let era := y / 400 in
  let yoe := y - era * 400 in
  let mp := if month d <=? 2 then month d + 9 else month d - 3 in
  let doy := (153 * mp + 2) / 5 + day d - 1 in
  let doe := yoe * 365 + yoe / 4 - yoe / 100 + doy in
  era * 146097 + doe - 719468.

(** The civil date of a day number; inverse of [days_from_civil]. *)
Definition civil_from_days (z : Z) : date :=
  let z := z + 719468 in
  let era := z / 146097 in
  let doe := z - era * 146097 in
  let yoe := (doe - doe / 1460 + doe / 36524 - doe / 146096) / 365 in
  let y := yoe + era * 400 in
  let doy := doe - (365 * yoe + yoe / 4 - yoe / 100) in
  let mp := (5 * doy + 2) / 153 in
  let d := doy - (153 * mp + 2) / 5 + 1 in
  let m := if mp <? 10 then mp + 3 else mp - 9 in
  mkDate (if m <=? 2 then y + 1 else y) m d.

(** [date + timedelta(days=n)] *)
Definition add_days (d : date) (n : Z) : date :=
  civil_from_days (days_from_civil d + n).

(** 0 = Sunday; 1970-01-01 was a Thursday. *)
Definition weekday (days : Z) : Z := (days + 4) mod 7.

(** Day number of the last Sunday of a 31-day month. *)
Definition last_sunday (y m : Z) : Z :=
  let d31 := days_from_civil (mkDate y m 31) in
  d31 - weekday d31.

(** Europe/Athens, as the tz database has it since 1996: EET (UTC+2),
    and EEST (UTC+3) from 01:00 UTC on the last Sunday of March to
    01:00 UTC on the last Sunday of October. *)
Definition dst_start (y : Z) : Z := last_sunday y 3 * 86400 + 3600.
Definition dst_end (y : Z) : Z := last_sunday y 10 * 86400 + 3600.

Definition is_dst (y : Z) (utc : Z) : bool :=
  (dst_start y <=? utc) && (utc <? dst_end y).

Definition utcoffset (y : Z) (utc : Z) : Z :=
  if is_dst y utc then 10800 else 7200.

(** The instant at which the Athens wall clock shows date [d] and
    [sod] seconds after midnight.  Wall times between 03:00 and 04:00 on
    a transition day are skipped or repeated (pandas raises on them);
    the script only localizes midnights. *)
Definition localize (d : date) (sod : Z) : Timestamp :=
  let wall := days_from_civil d * 86400 + sod in
  if is_dst (year d) (wall - 10800) then wall - 10800 else wall - 7200.

(** What the Athens wall clock shows at an instant of year [y]: seconds
    since 1970-01-01 00:00:00 of the wall clock. *)
Definition wall_clock (y : Z) (utc : Timestamp) : Z := utc + utcoffset y utc.

End Calendar.

(** [pd.Timestamp(start_date, tz='Europe/Athens')] *)
Definition start_time_of (start_date : date) : Timestamp :=
  Calendar.localize start_date 0.

(** [pd.Timestamp(end_date, tz='Europe/Athens') + timedelta(days=1) -
    timedelta(seconds=1)]: pandas adds a [timedelta] to a zone-aware
    [Timestamp] on the absolute time line (one day is 86400 seconds). *)
Definition end_time_of (end_date : date) : Timestamp :=
  Calendar.localize end_date 0 + 86400 - 1.

(** The spec's reading of the end of the range: the end date at 23:59:59
    on the Athens wall clock. *)
Definition end_of_day (end_date : date) : Timestamp :=
  Calendar.localize end_date 86399.

(* ===================================================================== *)
(** ** The provider, the page and the cache *)
(* ===================================================================== *)

Definition EIC_GR : string := "10YGR-HTSO-----Y".

Inductive operation :=
| OpGeneration | OpLoad | OpDayAheadPrices | OpGenerationForecast | OpLoadForecast.

(** One call to the ENTSO-E client, as the call log records it. *)
Record query := mkQuery {
  q_op : operation;
  q_area : string;
  q_start : Timestamp;
  q_end : Timestamp
}.

(** What [st.cache_data] keeps for one key. *)
Record entry (V W : Type) := mkEntry {
  value : V;
  fetched_at : Z;
  replay : list W
}.
Arguments mkEntry {V W} value fetched_at replay.
Arguments value {V W} e.
Arguments fetched_at {V W} e.
Arguments replay {V W} e.

Section Pipeline.
Context {F : Type} `{Float64 F}.

(** [EntsoePandasClient]: each query takes the area code and the two
    ends of the range and returns a frame or raises. *)
Record EntsoeClient := mkClient {
  query_generation : string -> Timestamp -> Timestamp -> result (DataFrame F);
  query_load : string -> Timestamp -> Timestamp -> result (DataFrame F);
  query_day_ahead_prices : string -> Timestamp -> Timestamp -> result (DataFrame F);
  query_generation_forecast : string -> Timestamp -> Timestamp -> result (DataFrame F);
  query_load_forecast : string -> Timestamp -> Timestamp -> result (DataFrame F)
}.

(** What the page shows, in the order the script emits it.  A number
    formatted by an f-string is kept as the number. *)
Inductive widget :=
| Markdown (text : string)
| Formatted (label : string) (x : F)
| Progress (n : Z)
| Metric (label : string) (x : option F)
| MetricAt (label : string) (time : Timestamp) (x : option F)
| DataTimestamp (t : Timestamp)
| Download (name : string)
| Chart (title : string)
| MapRow (name : string) (status : string)
| StError (text : string)
| StWarning (text : string)
| StSuccess (text : string).

Definition generation_result : Type :=
  DataFrame F * list (string * F) * Timestamp.

(** One cache per decorated function, keyed by the arguments; the call
    log of the client; the widgets of the current run. *)
Record world := mkWorld {
  generation_cache : gmap (date * date) (entry generation_result widget);
  consumption_cache : gmap (date * date) (entry (DataFrame F) widget);
  generation_forecast_cache : gmap (date * date) (entry (DataFrame F) widget);
  consumption_forecast_cache : gmap (date * date) (entry (DataFrame F) widget);
  calls : list query;
  ui : list widget
}.

Definition no_cache : world := mkWorld ∅ ∅ ∅ ∅ [] [].

(** A piece of script: it reads and changes the world and returns or
    raises; what it did before raising stays done. *)
Definition M (A : Type) : Type := world -> result A * world.

#[export] Instance M_ret : MRet M := fun A a w => (Return a, w).
#[export] Instance M_bind : MBind M := fun A B k m w =>
  match m w with
  | (Return a, w') => k a w'
  | (Raise e, w') => (Raise e, w')
  end.

Definition lift {A} (r : result A) : M A := fun w => (r, w).

(** [try: body except Exception as e: handler e] *)
Definition try_except {A} (body : M A) (handler : exn -> M A) : M A :=
  fun w =>
    match body w with
    | (Return a, w') => (Return a, w')
    | (Raise e, w') => handler e w'
    end.

Definition emit (x : widget) : M unit :=
  fun w => (Return tt,
            mkWorld (generation_cache w) (consumption_cache w)
                    (generation_forecast_cache w) (consumption_forecast_cache w)
                    (calls w) (ui w ++ [x])).

(** A call to the client: logged, then its answer. *)
Definition call_client (op : operation) (s e : Timestamp)
    (answer : result (DataFrame F)) : M (DataFrame F) :=
  fun w => (answer,
            mkWorld (generation_cache w) (consumption_cache w)
                    (generation_forecast_cache w) (consumption_forecast_cache w)
                    (calls w ++ [mkQuery op EIC_GR s e]) (ui w)).

(** *** [st.cache_data(ttl=...)]

    Streamlit's decorator (library code, outside the script): the
    return value is stored under the arguments together with the time of
    the call and the widgets the body emitted; a later call with the
    same arguments is served from the entry, without running the body,
    while [now - fetched_at < ttl] (the entry expires when its age
    reaches [ttl]); an exception raised by the body is not stored. *)
Section Cache.
Context {V : Type}.
Variable ttl : Z.
Variable get : world -> gmap (date * date) (entry V widget).
Variable set : gmap (date * date) (entry V widget) -> world -> world.
Variable now : Z.

Definition fresh (e : entry V widget) : bool := now - fetched_at e <? ttl.

Definition run_and_store (key : date * date) (body : M V) : M V :=
  fun w =>
    match body w with
    | (Return v, w') =>
        let shown := drop (length (ui w)) (ui w') in
        (Return v, set (<[key := mkEntry v now shown]> (get w')) w')
    | (Raise e, w') => (Raise e, w')
    end.

Definition cache_data (key : date * date) (body : M V) : M V :=
  fun w =>
    match get w !! key with
    | Some e =>
        if fresh e
        then (Return (value e),
              mkWorld (generation_cache w) (consumption_cache w)
                      (generation_forecast_cache w) (consumption_forecast_cache w)
                      (calls w) (ui w ++ replay e))
        else run_and_store key body w
    | None => run_and_store key body w
    end.
End Cache.

Definition set_generation_cache c (w : world) : world :=
  mkWorld c (consumption_cache w) (generation_forecast_cache w)
          (consumption_forecast_cache w) (calls w) (ui w).
Definition set_consumption_cache c (w : world) : world :=
  mkWorld (generation_cache w) c (generation_forecast_cache w)
          (consumption_forecast_cache w) (calls w) (ui w).
Definition set_generation_forecast_cache c (w : world) : world :=
  mkWorld (generation_cache w) (consumption_cache w) c
          (consumption_forecast_cache w) (calls w) (ui w).
Definition set_consumption_forecast_cache c (w : world) : world :=
  mkWorld (generation_cache w) (consumption_cache w)
          (generation_forecast_cache w) c (calls w) (ui w).

(** [st.cache_data.clear()] *)
Definition cache_clear : M unit :=
  fun w => (Return tt, mkWorld ∅ ∅ ∅ ∅ (calls w) (ui w)).

(** *** The fetch functions (script lines 46-144) *)

Variable ENTSOE_client : EntsoeClient.
Variable now : Z.

Definition get_generation_data_body (start_date end_date : date)
  : M generation_result :=
  let start_time := start_time_of start_date in
  let end_time := end_time_of end_date in
  dataFrame_generation ←
    call_client OpGeneration start_time end_time
      (query_generation ENTSOE_client EIC_GR start_time end_time);
  last_row ← lift (iloc_last (dropna dataFrame_generation));
  let data_time := fst last_row in
  let latest_value := source_mw (columns dataFrame_generation) last_row in
  mret (dataFrame_generation, latest_value, data_time).

Definition get_generation_data (start_date end_date : date)
  : M generation_result :=
  cache_data 900 generation_cache set_generation_cache now
    (start_date, end_date) (get_generation_data_body start_date end_date).

Definition get_consumption_data_body (start_date end_date : date)
  : M (DataFrame F) :=
  let start_time := start_time_of start_date in
  let end_time := end_time_of end_date in
  call_client OpLoad start_time end_time
    (query_load ENTSOE_client EIC_GR start_time end_time).

Definition get_consumption_data (start_date end_date : date) : M (DataFrame F) :=
  cache_data 900 consumption_cache set_consumption_cache now
    (start_date, end_date) (get_consumption_data_body start_date end_date).

(** No decorator on this one. *)
Definition get_price_data (start_date end_date : date) : M (DataFrame F) :=
  let start_time := start_time_of start_date in
  let end_time := end_time_of end_date in
  try_except
    (call_client OpDayAheadPrices start_time end_time
       (query_day_ahead_prices ENTSOE_client EIC_GR start_time end_time))
    (fun e =>
       _ ← emit (StError ("Error fetching price data: " ++ exn_msg e));
       mret empty_frame).

Definition get_generation_forecast_body (start_date end_date : date)
  : M (DataFrame F) :=
  let start_time := start_time_of start_date in
  let end_time := end_time_of end_date in
  try_except
    (call_client OpGenerationForecast start_time end_time
       (query_generation_forecast ENTSOE_client EIC_GR start_time end_time))
    (fun e =>
       _ ← emit (StError ("Error fetching generation forecast data: " ++ exn_msg e));
       mret empty_frame).

Definition get_generation_forecast (start_date end_date : date) : M (DataFrame F) :=
  cache_data 900 generation_forecast_cache set_generation_forecast_cache now
    (start_date, end_date) (get_generation_forecast_body start_date end_date).

Definition get_consumption_forecast_body (start_date end_date : date)
  : M (DataFrame F) :=
  let start_time := start_time_of start_date in
  let end_time := end_time_of end_date in
  try_except
    (call_client OpLoadForecast start_time end_time
       (query_load_forecast ENTSOE_client EIC_GR start_time end_time))
    (fun e =>
       _ ← emit (StError ("Error fetching consumption forecast data: " ++ exn_msg e));
       mret empty_frame).

Definition get_consumption_forecast (start_date end_date : date) : M (DataFrame F) :=
  cache_data 900 consumption_forecast_cache set_consumption_forecast_cache now
    (start_date, end_date) (get_consumption_forecast_body start_date end_date).

End Pipeline.
Arguments EntsoeClient F : clear implicits.
Arguments widget F : clear implicits.
Arguments generation_result F : clear implicits.
Arguments world F : clear implicits.
Arguments M F A : clear implicits.

(* ===================================================================== *)
(** ** Weather lookup and output status (script lines 85-116) *)
(* ===================================================================== *)

(** The three fields the script reads from the OpenWeatherMap answer:
    [main.temp], [wind.speed], [clouds.all]. *)
Record weather_data := mkWeather {
  temp : Q;
  wind_speed : Q;
  clouds_all : Q
}.

(** The text shown next to a plant: the formatted observation, or ["-"]. *)
Inductive weather_info :=
| Observation (temperature cloud_cover wind_speed : Q)
| NoInfo.

Definition Qgtb (a b : Q) : bool := negb (Qle_bool a b).
Definition Qltb (a b : Q) : bool := negb (Qle_bool b a).

(** The [if]/[elif] cascade on the plant type. *)
Definition output_status (plant_type : string) (wind_speed cloud_cover : Q) : string :=
  if String.eqb plant_type "Solar" then
    if Qgtb cloud_cover 80 then "Low Solar Output (Cloudy)"
    else if Qgtb cloud_cover 50 then "Moderate Solar Output (Partly Cloudy)"
    else "High Solar Output (Clear)"
  else if String.eqb plant_type "Wind" then
    if Qltb wind_speed 3 then "Low Wind Output (Calm)"
    else if Qltb wind_speed 8 then "Moderate Wind Output"
    else "High Wind Output (Windy)"
  else "-".

(** [get_weather_data]: [response] is what [requests.get(url).json()]
    followed by the three subscripts gives, an exception of any of these
    steps included; [except Exception] turns it into [("-", "-")].  The
    function is decorated with [st.cache_data(ttl=900)] as well; its
    cache, keyed by coordinates and plant type, only decides whether the
    request is sent again and is not part of the world below. *)
Definition get_weather_data (response : result weather_data) (plant_type : string)
  : weather_info * string :=
  match response with
  | Return w =>
      let temperature := temp w in
      let wind_speed := wind_speed w in
      let cloud_cover := clouds_all w in
      let status := output_status plant_type wind_speed cloud_cover in
      (Observation temperature cloud_cover wind_speed, status)
  | Raise _ => (NoInfo, "-")
  end.

(** The spec's [OutputStatus] and how the script's status texts read as
    one. *)
Inductive OutputStatus := LowOutput | ModerateOutput | HighOutput | NotApplicable.

Definition status_of_text (s : string) : option OutputStatus :=
  if String.eqb s "Low Solar Output (Cloudy)" then Some LowOutput
  else if String.eqb s "Moderate Solar Output (Partly Cloudy)" then Some ModerateOutput
  else if String.eqb s "High Solar Output (Clear)" then Some HighOutput
  else if String.eqb s "Low Wind Output (Calm)" then Some LowOutput
  else if String.eqb s "Moderate Wind Output" then Some ModerateOutput
  else if String.eqb s "High Wind Output (Windy)" then Some HighOutput
  else if String.eqb s "-" then Some NotApplicable
  else None.

(** The static plant table of the map tab: name, type, latitude,
    longitude (operator, capacity and description only feed the hover
    text). *)
Definition map_locations : list (string * string * Q * Q) :=
  [ ("Agios Dimitrios Power Station", "Lignite", 40.392, 21.928);
    ("Megalopolis Power Station", "Lignite", 37.416, 22.109);
    ("Kardia Power Station", "Lignite", 40.408, 24.784);
    ("Ptolemaida V Power Station", "Lignite", 40.480, 21.726);
    ("Agios Nikolaos Power Station", "Natural Gas", 38.358, 22.688);
    ("Lavrio Power Station", "Natural Gas", 37.746, 24.066);
    ("Kremasta Dam", "Hydro", 38.886, 21.495);
    ("Thisavros Dam", "Hydro", 41.354, 24.366);
    ("Kastraki Dam", "Hydro", 38.741, 21.364);
    ("Plastiras Dam", "Hydro", 39.235, 21.746);
    ("Stratos Dam", "Hydro", 38.675, 21.325);
    ("Kafireas Wind Farm", "Wind", 38.050, 24.501);
    ("Panachaiko Wind Farm", "Wind", 38.232, 21.868);
    ("Soros Wind Farm", "Wind", 41.074, 25.952);
    ("Kozani Solar Park", "Solar", 40.339, 21.780);
    ("Amyntaio Solar Park", "Solar", 40.696, 21.630);
    ("Ptolemaida Solar Park", "Solar", 40.510, 21.720);
    ("Naoussa Solar Park", "Solar", 40.630, 22.100) ]%Q.

(* ===================================================================== *)
(** ** The script, top to bottom (lines 149-538) *)
(* ===================================================================== *)

(** Charts, tables and the map are kept as one widget each: what a claim
    needs from them is whether the script reaches them. *)
Section Script.
Context {F : Type} `{Float64 F}.

Variable ENTSOE_client : EntsoeClient F.
Variable OWM : Q -> Q -> result weather_data.
Variable now : Z.

(** [st.progress(n)] accepts an [int] between 0 and 100; for any other
    [int] Streamlit raises [StreamlitValueOutOfRangeError], one of its
    [StreamlitAPIException]s. *)
Definition st_progress (n : Z) : M F unit :=
  if (0 <=? n) && (n <=? 100)
  then emit (Progress n)
  else lift (Raise (StreamlitValueOutOfRangeError
                      ("Progress Value has invalid value [0, 100]: " ++ pretty n))).

(** [series.iloc[-1]] on the price series, guarded by [.empty]. *)
Definition latest_price_of (dataFrame_price : DataFrame F) : option F :=
  if negb (empty dataFrame_price)
  then match last (rows dataFrame_price) with
       | Some (_, x :: _) => Some x
       | _ => None
       end
  else None.

(** Lines 229-238. *)
Definition sidebar_overview (m : DerivedMetrics F) : M F unit :=
  _ ← emit (Markdown "#### Quick Live Mix Overview");
  _ ← emit (Formatted "Total Generation (MW)" (total_generation_MW m));
  _ ← emit (Formatted "Renewable Energy (%)" (renewable_percentage m));
  n ← lift (py_int (renewable_percentage m));
  _ ← st_progress n;
  _ ← emit (Formatted "CO2 Emissions (kg/MWh)" (co2_emissions m));
  n ← lift (py_int (co2_emissions_percentage m));
  _ ← st_progress n;
  _ ← emit (Formatted "Lignite (%)" (lignite_percentage m));
  n ← lift (py_int (lignite_percentage m));
  _ ← st_progress n;
  _ ← emit (Formatted "Natural Gas (%)" (natural_gas_percentage m));
  n ← lift (py_int (natural_gas_percentage m));
  st_progress n.

(** Lines 244-264. *)
Definition headline_metrics (m : DerivedMetrics F) (latest_price : option F) : M F unit :=
  _ ← emit (Markdown "### Real-time Power Generation");
  _ ← emit (Metric "Total Generation (MW)" (Some (total_generation_MW m)));
  _ ← emit (Metric "RES Generation (%)" (Some (renewable_percentage m)));
  _ ← emit (Metric "Lignite Generation (%)" (Some (lignite_percentage m)));
  _ ← emit (Metric "Natural Gas Generation (%)" (Some (natural_gas_percentage m)));
  _ ← emit (Metric "CO2 Emissions (kg/MWh)" (Some (co2_emissions m)));
  emit (Metric "Day-Ahead Price (EUR/MWh)" latest_price).

(** Lines 271-318. *)
Definition tab_live (m : DerivedMetrics F) : M F unit :=
  _ ← emit (Chart "Live Generation Mix");
  _ ← (if fltb (of_int 50) (renewable_percentage m)
       then emit (StSuccess "The network is mostly green right now!")
       else if fltb (of_int 20) (renewable_percentage m)
       then emit (StWarning "The network has a moderate share of renewables.")
       else emit (StError "The network is heavily reliant on fossil fuels."));
  _ ← (if fltb (of_int 30) (lignite_percentage m)
       then emit (Formatted "Lignite generation is very high! Consider reducing it."
                            (lignite_percentage m))
       else mret tt);
  emit (Chart "Green (Renewable) Energy Share (%)").

(** Lines 325-398.  The price data is a series: the one column of its
    frame. *)
Definition tab_trends (dataFrame_consumption dataFrame_price : DataFrame F) : M F unit :=
  _ ← emit (Chart "Evolution of Generation per Source (Last 24h)");
  _ ← (if negb (empty dataFrame_consumption)
       then
         let consumption_series := first_column dataFrame_consumption in
         let max_consumption := series_max consumption_series in
         let min_consumption := series_min consumption_series in
         max_consumption_time ← lift (idxmax consumption_series);
         min_consumption_time ← lift (idxmin consumption_series);
         _ ← emit (MetricAt "Max Consumption" max_consumption_time max_consumption);
         _ ← emit (MetricAt "Min Consumption" min_consumption_time min_consumption);
         emit (Chart "Demand Curve Evolution (Last 24h)")
       else emit (StWarning "No consumption data available for the selected date range."));
  if negb (empty dataFrame_price)
  then
    let max_price := series_max (first_column dataFrame_price) in
    let min_price := series_min (first_column dataFrame_price) in
    max_time ← lift (idxmax (first_column dataFrame_price));
    min_time ← lift (idxmin (first_column dataFrame_price));
    _ ← emit (MetricAt "Max Price" max_time max_price);
    _ ← emit (MetricAt "Min Price" min_time min_price);
    emit (Chart "Day-Ahead Price Evolution (Last 24h)")
  else emit (StWarning "No price data available for the selected date range.").

(** Lines 405-507: one weather lookup per row of the plant table. *)
Definition tab_map : M F unit :=
  _ ← mapM (fun row : string * string * Q * Q =>
              let '(name, type, lat, lon) := row in
              emit (MapRow name (snd (get_weather_data (OWM lat lon) type))))
           map_locations;
  emit (Chart "Greece Energy Map").

(** Lines 514-538. *)
Definition tab_forecasts (generation_forecast consumption_forecast : DataFrame F)
  : M F unit :=
  _ ← (if negb (empty generation_forecast)
       then emit (Chart "Generation Forecast for the next 24 Hours")
       else emit (StWarning "No generation forecast data available for the next 24 hours."));
  if negb (empty consumption_forecast)
  then emit (Chart "Consumption Forecast for the next 24 Hours")
  else emit (StWarning "No consumption forecast data available for the next 24 hours.").

(** One run of the script.  [start_date] and [end_date] are the two
    date inputs, [today] is [datetime.now().date()] (the script reads the
    clock twice, on lines 179 and 180; both readings are taken to fall
    on the same day), [refresh] tells whether the refresh button was
    pressed. *)
Definition script (start_date end_date today : date) (refresh : bool) : M F unit :=
  _ ← emit (Markdown "Hellas Grid Monitor");
  _ ← emit (Markdown "Date Filters");
  '(dataFrame_generation, latest_value, data_time) ←
    get_generation_data ENTSOE_client now start_date end_date;
  dataFrame_consumption ← get_consumption_data ENTSOE_client now start_date end_date;
  dataFrame_price ← get_price_data ENTSOE_client start_date end_date;
  let latest_price := latest_price_of dataFrame_price in
  let forecast_start := today in
  let forecast_end := Calendar.add_days today 1 in
  dataFrame_generation_forecast ←
    get_generation_forecast ENTSOE_client now forecast_start forecast_end;
  dataFrame_consumption_forecast ←
    get_consumption_forecast ENTSOE_client now forecast_start forecast_end;
  _ ← emit (DataTimestamp data_time);
  _ ← (if refresh
       then _ ← cache_clear; lift (Raise (PyExn "RerunException" ""))
       else mret tt);
  _ ← emit (Download "Download Generation Data (CSV)");
  let m := derive_metrics latest_value in
  _ ← sidebar_overview m;
  _ ← headline_metrics m latest_price;
  _ ← tab_live m;
  _ ← tab_trends dataFrame_consumption dataFrame_price;
  _ ← tab_map;
  tab_forecasts dataFrame_generation_forecast dataFrame_consumption_forecast.

End Script.

(* ===================================================================== *)
(** ** Vocabulary of the statements *)
(* ===================================================================== *)

(** *** Snapshots over the exact numbers *)

Definition finite (x : xq) : Prop :=
  match x with Fin _ => True | _ => False end.

Definition nonneg (x : xq) : Prop :=
  match x with Fin q => (0 <= q)%Q | _ => False end.

(** The MW a cell stands for. *)
Definition mw (x : xq) : Q :=
  match x with Fin q => q | _ => 0%Q end.

(** Exact sum of the MW column. *)
Definition total_mw (lv : list (string * xq)) : Q :=
  fold_right (fun r acc => (mw (snd r) + acc)%Q) 0%Q lv.

(** Exact sum of the MW column over the rows whose label passes [mask]. *)
Definition sum_where (mask : string -> bool) (lv : list (string * xq)) : Q :=
  total_mw (List.filter (fun r => mask (fst r)) lv).

(** The MW of one source label: the value of its row, 0 when the
    snapshot has no such row. *)
Definition mw_of (label : string) (lv : list (string * xq)) : Q :=
  match List.find (fun r => String.eqb (fst r) label) lv with
  | Some r => mw (snd r)
  | None => 0%Q
  end.

(** The spec's end-to-end scenario, over both number types. *)
Definition scenario : list (string * xq) :=
  [ ("Wind Onshore", Fin 500); ("Solar", Fin 300);
    ("Fossil Brown coal/Lignite", Fin 100); ("Fossil Gas", Fin 100) ].

Definition scenario_b64 : list (string * float) :=
  [ ("Wind Onshore", 500%float); ("Solar", 300%float);
    ("Fossil Brown coal/Lignite", 100%float); ("Fossil Gas", 100%float) ].

(** A fully populated row with no generation at all. *)
Definition idle_snapshot : list (string * xq) :=
  [ ("Solar", Fin 0); ("Fossil Gas", Fin 0) ].

Definition idle_snapshot_b64 : list (string * float) :=
  [ ("Solar", 0%float); ("Fossil Gas", 0%float) ].

(** *** Snapshots of whole megawatts, in binary64 *)

(** A snapshot given by whole numbers of MW, as the floats the frame
    holds. *)
Definition whole_mw (lv : list (string * Z)) : list (string * float) :=
  map (fun r => (fst r, B64.of_Z (snd r))) lv.

(** Exact sum of the MW column, and of the rows whose label passes
    [mask]. *)
Definition total_whole (lv : list (string * Z)) : Z :=
  fold_right (fun r acc => snd r + acc) 0 lv.

Definition whole_where (mask : string -> bool) (lv : list (string * Z)) : Z :=
  total_whole (List.filter (fun r => mask (fst r)) lv).

(** A way of adding whole numbers up, in any order and grouping (numpy
    adds a long column in blocks and pairs, not from left to right). *)
Inductive summation :=
| Value (z : Z)
| Plus (a b : summation).

Fixpoint exact_sum (t : summation) : Z :=
  match t with
  | Value z => z
  | Plus a b => exact_sum a + exact_sum b
  end.

Fixpoint float_sum (t : summation) : float :=
  match t with
  | Value z => B64.of_Z z
  | Plus a b => PrimFloat.add (float_sum a) (float_sum b)
  end.

Fixpoint values_from (low : Z) (t : summation) : Prop :=
  match t with
  | Value z => low <= z
  | Plus a b => values_from low a /\ values_from low b
  end.


(** The largest total, in MW, of the snapshots on which the binary64
    shares are checked below, one pair of sums at a time. *)
Definition checked_total : Z := 10000.

(** [P i], [P (i-1)], ..., [P (i-n)] all hold. *)
Fixpoint all_down (n : nat) (i : PrimInt63.int) (P : PrimInt63.int -> bool) : bool :=
  match n with
  | O => P i
  | S n' => if P i then all_down n' (PrimInt63.sub i 1%uint63) P else false
  end.

(** [P t r] holds for every [0 <= r <= t <= i], when [i] is [n]. *)
Fixpoint all_pairs (n : nat) (i : PrimInt63.int)
    (P : PrimInt63.int -> PrimInt63.int -> bool) : bool :=
  match n with
  | O => P i i
  | S n' =>
      if all_down n i (P i) then all_pairs n' (PrimInt63.sub i 1%uint63) P else false
  end.

(** The float of [t] is a number, and adding the floats of [r] and
    [t - r] gives it. *)
Definition sum_ok (t r : PrimInt63.int) : bool :=
  negb (PrimFloat.is_nan (PrimFloat.of_uint63 t)) &&
  PrimFloat.Leibniz.eqb
    (PrimFloat.add (PrimFloat.of_uint63 r) (PrimFloat.of_uint63 (PrimInt63.sub t r)))
    (PrimFloat.of_uint63 t).

(** The share of [r] in [t], as [derive_metrics] computes it. *)
Definition share_of (r t : PrimInt63.int) : float :=
  PrimFloat.mul (PrimFloat.div (PrimFloat.of_uint63 r) (PrimFloat.of_uint63 t))
                (PrimFloat.of_uint63 100%uint63).

(** [0 <= p <= 100], as floats. *)
Definition percent (p : float) : bool :=
  PrimFloat.leb 0%float p && PrimFloat.leb p 100%float.

(** [p <= 100 r / t + 2^-39]: on the 53-bit mantissa [m] and the
    exponent [se - 2154] of [p], with [s = 2114 - se] the number of
    mantissa bits below [2^-40]. *)
Definition close_ok (p : float) (r t : PrimInt63.int) : bool :=
  negb (PrimFloat.is_nan p) &&
  (PrimFloat.is_zero p ||
   (negb (PrimFloat.is_infinity p) && negb (PrimFloat.get_sign p) &&
    let (f, se) := PrimFloat.frshiftexp p in
    let m := PrimFloat.normfr_mantissa f in
    PrimInt63.leb 4503599627370496%uint63 m &&
    PrimInt63.ltb m 9007199254740992%uint63 &&
    PrimInt63.leb 2092%uint63 se && PrimInt63.leb se 2108%uint63 &&
    PrimInt63.leb
      (PrimInt63.mul
         (PrimInt63.add (PrimInt63.lsr m (PrimInt63.sub 2114%uint63 se)) 1%uint63) t)
      (PrimInt63.add (PrimInt63.mul r 109951162777600%uint63)
                     (PrimInt63.mul 2%uint63 t)))).

Definition share_ok (t r : PrimInt63.int) : bool :=
  PrimInt63.eqb t 0%uint63 || (percent (share_of r t) && close_ok (share_of r t) r t).

Definition pair_ok (t r : PrimInt63.int) : bool := sum_ok t r && share_ok t r.


(** *** Sample inputs *)

(** An observation with 85% cloud cover and 5 m/s wind (20 degrees). *)
Definition overcast_breeze : weather_data := mkWeather 20 5 85.

(** A generation frame whose most recent row misses the Solar value. *)
Definition gappy_frame : DataFrame xq :=
  mkFrame ["Solar"; "Fossil Gas"]
          [ (1748725200, [Fin 300; Fin 100]);
            (1748728800, [Fin 320; Fin 90]);
            (1748732400, [NaN; Fin 95]) ].

Definition price_frame : DataFrame xq :=
  mkFrame ["price"] [ (1748725200, [Fin 95]); (1748728800, [Fin 101]) ].

(** A client that answers every query with [answer op]. *)
Definition client_answering (answer : operation -> result (DataFrame xq))
  : EntsoeClient xq :=
  mkClient (fun _ _ _ => answer OpGeneration)
           (fun _ _ _ => answer OpLoad)
           (fun _ _ _ => answer OpDayAheadPrices)
           (fun _ _ _ => answer OpGenerationForecast)
           (fun _ _ _ => answer OpLoadForecast).

Definition timeout : exn := PyExn "ConnectionError" "Read timed out.".

Definition healthy_client : EntsoeClient xq :=
  client_answering (fun op =>
    match op with
    | OpDayAheadPrices => Return price_frame
    | _ => Return gappy_frame
    end).

(** The same provider with one operation timing out. *)
Definition operation_eqb (a b : operation) : bool :=
  match a, b with
  | OpGeneration, OpGeneration | OpLoad, OpLoad
  | OpDayAheadPrices, OpDayAheadPrices
  | OpGenerationForecast, OpGenerationForecast
  | OpLoadForecast, OpLoadForecast => true
  | _, _ => false
  end.

Definition client_failing (failed : operation) : EntsoeClient xq :=
  client_answering (fun op =>
    if operation_eqb op failed then Raise timeout
    else match op with
         | OpDayAheadPrices => Return price_frame
         | _ => Return gappy_frame
         end).

(** A weather API that is down. *)
Definition weather_down : Q -> Q -> result weather_data :=
  fun _ _ => Raise (PyExn "ConnectionError" "").

(** A generation frame in which every row misses a value. *)
Definition patchy_frame : DataFrame xq :=
  mkFrame ["Solar"; "Fossil Gas"]
          [ (1748725200, [NaN; Fin 100]); (1748728800, [Fin 320; NaN]) ].

(** The sample frames and the healthy provider, in binary64. *)
Definition gappy_frame_b64 : DataFrame float :=
  mkFrame ["Solar"; "Fossil Gas"]
          [ (1748725200, [300%float; 100%float]);
            (1748728800, [320%float; 90%float]);
            (1748732400, [nan; 95%float]) ].

Definition price_frame_b64 : DataFrame float :=
  mkFrame ["price"] [ (1748725200, [95%float]); (1748728800, [101%float]) ].

Definition healthy_client_b64 : EntsoeClient float :=
  mkClient (fun _ _ _ => Return gappy_frame_b64)
           (fun _ _ _ => Return gappy_frame_b64)
           (fun _ _ _ => Return price_frame_b64)
           (fun _ _ _ => Return gappy_frame_b64)
           (fun _ _ _ => Return gappy_frame_b64).

(** *** Outcomes of a piece of script *)

(** [returns m w P]: run from [w], the script [m] returns a value and
    leaves a world that satisfy [P]. *)
Definition returns {F A : Type} (m : M F A) (w : world F)
    (P : A -> world F -> Prop) : Prop :=
  exists a w', m w = (Return a, w') /\ P a w'.

(** Two worlds hold the same four caches. *)
Definition same_caches {F : Type} (w w' : world F) : Prop :=
  generation_cache w' = generation_cache w /\
  consumption_cache w' = consumption_cache w /\
  generation_forecast_cache w' = generation_forecast_cache w /\
  consumption_forecast_cache w' = consumption_forecast_cache w.

(** What a fetch with a [try]/[except] around its query comes to: the
    frame of the answer or the empty frame, one more call in the log, and
    the error box after an exception. *)
Definition contained {F : Type} (op : operation) (text : string)
    (answer : result (DataFrame F)) (start_date end_date : date) (w : world F)
  : result (DataFrame F) * world F :=
  (Return (match answer with Return df => df | Raise _ => mkFrame [] [] end),
   mkWorld (generation_cache w) (consumption_cache w)
           (generation_forecast_cache w) (consumption_forecast_cache w)
           (calls w ++ [mkQuery op EIC_GR (start_time_of start_date)
                                (end_time_of end_date)])
           (match answer with
            | Return _ => ui w
            | Raise e => ui w ++ [StError (text ++ exn_msg e)]
            end)).

(** *** Conditions on a run *)

(** The four percentages of the sidebar convert to integers that a
    progress bar accepts. *)
Definition bars_in_range {F : Type} `{Float64 F} (m : DerivedMetrics F) : Prop :=
  forall x,
    In x [ renewable_percentage m; co2_emissions_percentage m;
           lignite_percentage m; natural_gas_percentage m ] ->
    exists n : Z, py_int x = Return n /\ 0 <= n <= 100.

(** The first column of the frame holds at least one value. *)
Definition has_value {F : Type} `{Float64 F} (df : DataFrame F) : Prop :=
  exists r, In r (first_column df) /\ isna (snd r) = false.


(* ===================================================================== *)
(** * Properties *)
(* ===================================================================== *)

(** ** Sums of a finite MW column *)

Section ExactSums.
Local Open Scope Q_scope.

Lemma sgn_zero (q : Q) : q == 0 -> Xq.sgn q = 0%Z.
Proof.
  unfold Qeq, Xq.sgn. simpl. intros E. rewrite Z.mul_1_r in E. now rewrite E.
Qed.

Lemma finite_filter_notna (l : list xq) :
  Forall finite l -> List.filter (fun x => negb (isna x)) l = l.
Proof.
  induction 1 as [|x l Hx _ IH]; [reflexivity|].
  destruct x; simpl in *; try contradiction. now rewrite IH.
Qed.

Lemma fold_add_finite (l : list (string * xq)) : forall a,
  Forall finite (map snd l) ->
  exists s, fold_left fadd (map snd l) (Fin a) = Fin s /\ s == a + total_mw l.
Proof.
  induction l as [|[lbl x] l IH]; intros a Hf; simpl.
  - exists a. split; [reflexivity | ring].
  - inversion Hf as [|? ? Hx Hl]; subst. destruct x; simpl in Hx; try contradiction.
    destruct (IH (a + q) Hl) as (s & Es & Hs).
    exists s. split; [exact Es|]. rewrite Hs. simpl. ring.
Qed.

(** [series.sum()] of a column without missing cells is its exact sum. *)
Lemma series_sum_finite (l : list (string * xq)) :
  Forall finite (map snd l) ->
  exists s, series_sum (map snd l) = Fin s /\ s == total_mw l.
Proof.
  intros Hf. unfold series_sum. rewrite (finite_filter_notna _ Hf).
  destruct (fold_add_finite l 0 Hf) as (s & Es & Hs).
  exists s. split; [exact Es|]. rewrite Hs. ring.
Qed.

Lemma finite_filter (p : string * xq -> bool) (l : list (string * xq)) :
  Forall finite (map snd l) -> Forall finite (map snd (List.filter p l)).
Proof.
  induction l as [|r l IH]; simpl; intros Hf; [constructor|].
  inversion Hf; subst. destruct (p r); simpl; auto.
Qed.

Lemma mw_where_finite (mask : string -> bool) (l : list (string * xq)) :
  Forall finite (map snd l) ->
  exists s, mw_where mask l = Fin s /\ s == sum_where mask l.
Proof.
  intros Hf. unfold mw_where, sum_where.
  apply series_sum_finite, finite_filter, Hf.
Qed.

Lemma nonneg_finite (l : list xq) : Forall nonneg l -> Forall finite l.
Proof.
  apply List.Forall_impl. intros [q| | |]; simpl; tauto.
Qed.

Lemma total_mw_nonneg (l : list (string * xq)) :
  Forall nonneg (map snd l) -> 0 <= total_mw l.
Proof.
  induction l as [|[lbl x] l IH]; simpl; intros Hn; [apply Qle_refl|].
  inversion Hn as [|? ? Hx Hl]; subst. destruct x; simpl in *; try contradiction.
  specialize (IH Hl). lra.
Qed.

Lemma sum_where_nonneg (mask : string -> bool) (l : list (string * xq)) :
  Forall nonneg (map snd l) -> 0 <= sum_where mask l.
Proof.
  intros Hn. unfold sum_where. apply total_mw_nonneg.
  induction l as [|r l IH]; simpl; [constructor|].
  inversion Hn; subst. destruct (mask (fst r)); simpl; auto.
Qed.

(** Three masks that never hold together select at most the whole. *)
Lemma sum_where_disjoint3 (p q r : string -> bool) (l : list (string * xq)) :
  (forall s, p s && q s = false) ->
  (forall s, p s && r s = false) ->
  (forall s, q s && r s = false) ->
  Forall nonneg (map snd l) ->
  sum_where p l + sum_where q l + sum_where r l <= total_mw l.
Proof.
  intros Hpq Hpr Hqr. unfold sum_where.
  induction l as [|[lbl x] l IH]; simpl; intros Hn; [lra|].
  inversion Hn as [|? ? Hx Hl]; subst. specialize (IH Hl).
  destruct x; simpl in Hx; try contradiction.
  specialize (Hpq lbl). specialize (Hpr lbl). specialize (Hqr lbl).
  destruct (p lbl), (q lbl), (r lbl); simpl in *; try discriminate; lra.
Qed.

Lemma sum_where_le_total (p : string -> bool) (l : list (string * xq)) :
  Forall nonneg (map snd l) -> sum_where p l <= total_mw l.
Proof.
  intros Hn.
  pose proof (sum_where_disjoint3 p (fun _ => false) (fun _ => false) l) as D.
  unfold sum_where at 2 3 in D. 
  assert (E : List.filter (fun r : string * xq => (fun _ : string => false) (fst r)) l = []).
  { clear. induction l; simpl; auto. }
  rewrite E in D. simpl in D.
  specialize (D (fun s => andb_false_r _) (fun s => andb_false_r _) (fun s => eq_refl) Hn).
  lra.
Qed.

End ExactSums.

(** ** The derived metrics on a finite snapshot *)

Section ExactMetrics.
Local Open Scope Q_scope.

Lemma share_finite (r t : Q) :
  ~ t == 0 -> fmul (fdiv (Fin r) (Fin t)) (of_int 100) = Fin (r / t * 100).
Proof.
  intros Ht. simpl. destruct (Qeq_bool t 0) eqn:E.
  - apply Qeq_bool_eq in E. contradiction.
  - reflexivity.
Qed.

Lemma share_undefined (r : Q) (t : Q) :
  r == 0 -> t == 0 -> fmul (fdiv (Fin r) (Fin t)) (of_int 100) = NaN.
Proof.
  intros Hr Ht. simpl. apply Qeq_bool_iff in Ht. rewrite Ht.
  rewrite (sgn_zero r Hr). reflexivity.
Qed.




End ExactMetrics.

(** ** Sums by label, for a snapshot with one row per label *)

Section ByLabel.
Local Open Scope Q_scope.

Lemma isin_In (L : list string) (s : string) : isin L s = true <-> In s L.
Proof.
  unfold isin. rewrite existsb_exists. split.
  - intros (a & Ha & E). apply String.eqb_eq in E. now subst.
  - intros Hs. exists s. split; [exact Hs | apply String.eqb_refl].
Qed.

Lemma sum_where_ext (p q : string -> bool) (l : list (string * xq)) :
  (forall s, p s = q s) -> sum_where p l = sum_where q l.
Proof.
  intros E. unfold sum_where. f_equal. apply List.filter_ext. intros r. apply E.
Qed.

Lemma sum_where_or (p q : string -> bool) (l : list (string * xq)) :
  (forall s, p s && q s = false) ->
  sum_where (fun s => p s || q s) l == sum_where p l + sum_where q l.
Proof.
  intros D. unfold sum_where. induction l as [|[lbl x] l IH]; simpl; [ring|].
  specialize (D lbl). destruct (p lbl), (q lbl); simpl in *; try discriminate;
    rewrite IH; ring.
Qed.

Lemma sum_where_absent (a : string) (l : list (string * xq)) :
  ~ In a (map fst l) -> sum_where (is_label a) l == 0 /\ mw_of a l == 0.
Proof.
  unfold sum_where, mw_of, is_label.
  induction l as [|[lbl x] l IH]; simpl; intros Hn; [split; reflexivity|].
  destruct (String.eqb_spec lbl a) as [->|Hne].
  - exfalso. apply Hn. now left.
  - apply IH. intros Hin. apply Hn. now right.
Qed.

Lemma sum_where_label (a : string) (l : list (string * xq)) :
  List.NoDup (map fst l) -> sum_where (is_label a) l == mw_of a l.
Proof.
  induction l as [|[lbl x] l IH]; intros Hd; [reflexivity|].
  inversion Hd as [|? ? Hnin Hd']; subst.
  unfold sum_where, mw_of, is_label in *. simpl.
  destruct (String.eqb_spec lbl a) as [->|Hne]; simpl.
  - destruct (sum_where_absent a l Hnin) as [E _].
    unfold sum_where, is_label in E. rewrite E. ring.
  - apply IH, Hd'.
Qed.

Lemma sum_where_isin (L : list string) (l : list (string * xq)) :
  List.NoDup L -> List.NoDup (map fst l) ->
  sum_where (isin L) l == fold_right (fun a acc => mw_of a l + acc) 0 L.
Proof.
  intros HL Hl. induction HL as [|a L Ha HL IH]; simpl.
  - unfold sum_where. replace (List.filter _ l) with (@nil (string * xq)); [reflexivity|].
    clear. induction l; simpl; auto.
  - rewrite <- IH, <- (sum_where_label a l Hl).
    rewrite <- sum_where_or.
    + apply Qeq_refl.
    + intros s. unfold is_label. destruct (String.eqb_spec s a) as [->|]; [|reflexivity].
      simpl. destruct (isin L a) eqn:E; [|reflexivity].
      apply isin_In in E. contradiction.
Qed.

Lemma renewable_labels_distinct : List.NoDup renewable_generation.
Proof.
  unfold renewable_generation. repeat constructor; simpl; intuition discriminate.
Qed.

End ByLabel.

(** ** Claims on the Metric Derivation Engine *)

Section MetricClaims.
Local Open Scope Q_scope.

(** C4. On a snapshot with one row per label, finite values and a
    non-zero total, the renewable percentage is the MW of exactly Wind
    Onshore, Solar, Hydro Water Reservoir and Biomass over the total,
    times 100, and the CO2 figure is (lignite MW x 1000 + gas MW x 400)
    over the total; on the spec's scenario the engine returns total
    1000, shares 80, 10, 10 and intensity 140, in exact arithmetic and
    in binary64 alike. *)
Theorem derived_metrics_formulas :
  (forall latest_value : list (string * xq),
      List.NoDup (map fst latest_value) ->
      Forall finite (map snd latest_value) ->
      ~ total_mw latest_value == 0 ->
      Xq.eq (total_generation_MW (derive_metrics latest_value))
            (Fin (total_mw latest_value)) /\
      Xq.eq (renewable_percentage (derive_metrics latest_value))
            (Fin ((mw_of "Wind Onshore" latest_value + mw_of "Solar" latest_value
                   + mw_of "Hydro Water Reservoir" latest_value
                   + mw_of "Biomass" latest_value)
                  / total_mw latest_value * 100)) /\
      Xq.eq (co2_emissions (derive_metrics latest_value))
            (Fin ((mw_of "Fossil Brown coal/Lignite" latest_value * 1000
                   + mw_of "Fossil Gas" latest_value * 400)
                  / total_mw latest_value)))
  /\ (Xq.eq (total_generation_MW (derive_metrics scenario)) (Fin 1000) /\
      Xq.eq (renewable_percentage (derive_metrics scenario)) (Fin 80) /\
      Xq.eq (lignite_percentage (derive_metrics scenario)) (Fin 10) /\
      Xq.eq (natural_gas_percentage (derive_metrics scenario)) (Fin 10) /\
      Xq.eq (co2_emissions (derive_metrics scenario)) (Fin 140))
  /\ (total_generation_MW (derive_metrics scenario_b64) = 1000%float /\
      renewable_percentage (derive_metrics scenario_b64) = 80%float /\
      lignite_percentage (derive_metrics scenario_b64) = 10%float /\
      natural_gas_percentage (derive_metrics scenario_b64) = 10%float /\
      co2_emissions (derive_metrics scenario_b64) = 140%float).
Proof.
  split; [|split].
  - intros lv Hd Hf Hnz.
    destruct (series_sum_finite lv Hf) as (t & Et & Ht).
    destruct (mw_where_finite (isin renewable_generation) lv Hf) as (r & Er & Hr).
    destruct (mw_where_finite (is_label "Fossil Brown coal/Lignite") lv Hf) as (l & El & Hl).
    destruct (mw_where_finite (is_label "Fossil Gas") lv Hf) as (g & Eg & Hg).
    assert (Htz : ~ t == 0) by (rewrite Ht; exact Hnz).
    unfold derive_metrics; cbn [total_generation_MW renewable_percentage co2_emissions].
    rewrite Et, Er, El, Eg, (share_finite r t Htz).
    split; [exact Ht|]. split.
    + simpl. rewrite Hr, Ht.
      rewrite (sum_where_isin _ lv renewable_labels_distinct Hd). simpl.
      apply Qmult_comp; [|reflexivity]. apply Qdiv_comp; [ring | reflexivity].
    + simpl. destruct (Qeq_bool t 0) eqn:E; [apply Qeq_bool_eq in E; contradiction|].
      simpl. rewrite Hl, Hg, Ht, !(sum_where_label _ lv Hd).
      reflexivity.
  - vm_compute. repeat split; reflexivity.
  - vm_compute. repeat split; reflexivity.
Qed.

(** The general formula of C4 applies to the spec's scenario. *)
Lemma derived_metrics_formulas_witness :
  List.NoDup (map fst scenario) /\ Forall finite (map snd scenario) /\
  ~ total_mw scenario == 0 /\
  Xq.eq (renewable_percentage (derive_metrics scenario))
        (Fin ((mw_of "Wind Onshore" scenario + mw_of "Solar" scenario
               + mw_of "Hydro Water Reservoir" scenario + mw_of "Biomass" scenario)
              / total_mw scenario * 100)).
Proof.
  assert (Hd : List.NoDup (map fst scenario))
    by (simpl; repeat constructor; simpl; intuition discriminate).
  assert (Hf : Forall finite (map snd scenario)) by (simpl; repeat constructor).
  assert (Hnz : ~ total_mw scenario == 0) by (vm_compute; discriminate).
  split; [exact Hd|]. split; [exact Hf|]. split; [exact Hnz|].
  exact (proj1 (proj2 (proj1 derived_metrics_formulas scenario Hd Hf Hnz))).
Defined.

End MetricClaims.

(** ** The shares of a snapshot of whole megawatts, in binary64 *)

Section WholeMegawatts.

Lemma to_Z_pred (i : PrimInt63.int) :
  1 <= Uint63.to_Z i -> Uint63.to_Z (PrimInt63.sub i 1%uint63) = Uint63.to_Z i - 1.
Proof.
  intros Hi. rewrite Uint63.sub_spec. change (Uint63.to_Z 1) with 1.
  apply Z.mod_small. pose proof (Uint63.to_Z_bounded i). lia.
Qed.

Lemma to_of_Z (z : Z) : 0 <= z <= checked_total -> Uint63.to_Z (Uint63.of_Z z) = z.
Proof.
  intros Hz. rewrite Uint63.of_Z_spec. apply Z.mod_small.
  unfold checked_total in Hz. change wB with 9223372036854775808. lia.
Qed.

Lemma all_down_spec (n : nat) : forall (i : PrimInt63.int) (P : PrimInt63.int -> bool),
  all_down n i P = true -> Z.of_nat n <= Uint63.to_Z i ->
  forall k : Z, Uint63.to_Z i - Z.of_nat n <= k <= Uint63.to_Z i ->
    P (Uint63.of_Z k) = true.
Proof.
  induction n as [|n IH]; intros i P Hall Hn k Hk.
  - cbn [all_down] in Hall. assert (E : k = Uint63.to_Z i) by lia.
    subst k. now rewrite Uint63.of_to_Z.
  - cbn [all_down] in Hall. destruct (P i) eqn:HP; [|discriminate].
    destruct (Z.eq_dec k (Uint63.to_Z i)) as [->|Hne].
    + now rewrite Uint63.of_to_Z.
    + pose proof (to_Z_pred i ltac:(lia)) as Hs.
      apply (IH _ P Hall); lia.
Qed.

Lemma all_pairs_spec (n : nat) :
  forall (i : PrimInt63.int) (P : PrimInt63.int -> PrimInt63.int -> bool),
  all_pairs n i P = true -> Uint63.to_Z i = Z.of_nat n ->
  forall t r : Z, 0 <= r <= t -> t <= Z.of_nat n ->
    P (Uint63.of_Z t) (Uint63.of_Z r) = true.
Proof.
  induction n as [|n IH]; intros i P Hall Hi t r Hr Ht.
  - cbn [all_pairs] in Hall. assert (t = 0) by lia. assert (r = 0) by lia. subst.
    change (Z.of_nat 0) with 0 in Hi. rewrite <- Hi, Uint63.of_to_Z. exact Hall.
  - cbn [all_pairs] in Hall.
    destruct (all_down (S n) i (P i)) eqn:Hrow; [|discriminate].
    destruct (Z.eq_dec t (Z.of_nat (S n))) as [->|Hne].
    + rewrite <- Hi, Uint63.of_to_Z.
      apply (all_down_spec (S n) i (P i) Hrow); lia.
    + pose proof (to_Z_pred i ltac:(lia)) as Hs.
      apply (IH _ P Hall); lia.
Qed.

(** Every pair of sums up to [checked_total] passes the two checks. *)
Lemma grid_checked :
  all_pairs (Z.to_nat checked_total) (Uint63.of_Z checked_total) pair_ok = true.
Proof. vm_cast_no_check (eq_refl true). Qed.

Lemma pair_checked (t r : Z) :
  0 <= r <= t -> t <= checked_total ->
  sum_ok (Uint63.of_Z t) (Uint63.of_Z r) = true /\
  share_ok (Uint63.of_Z t) (Uint63.of_Z r) = true.
Proof.
  intros Hr Ht. apply andb_true_iff.
  apply (all_pairs_spec _ _ pair_ok grid_checked).
  - rewrite to_of_Z by (unfold checked_total; lia). now rewrite Z2Nat.id by (unfold checked_total; lia).
  - exact Hr.
  - rewrite Z2Nat.id by (unfold checked_total; lia). exact Ht.
Qed.

Lemma of_Z_nonneg (z : Z) : 0 <= z -> B64.of_Z z = PrimFloat.of_uint63 (Uint63.of_Z z).
Proof. destruct z; intros Hz; [reflexivity | reflexivity | lia]. Qed.

(** Whole numbers up to [checked_total] are added without rounding. *)
Lemma add_whole (a b : Z) :
  0 <= a -> 0 <= b -> a + b <= checked_total ->
  PrimFloat.add (B64.of_Z a) (B64.of_Z b) = B64.of_Z (a + b).
Proof.
  intros Ha Hb Hs. destruct (pair_checked (a + b) a ltac:(lia) Hs) as [S _].
  apply andb_true_iff in S. destruct S as [_ S].
  apply FloatAxioms.Leibniz.eqb_spec in S.
  rewrite !of_Z_nonneg by lia. rewrite <- S. do 2 f_equal.
  apply Uint63.to_Z_inj. rewrite Uint63.sub_spec, !to_of_Z by lia.
  rewrite Z.mod_small; [lia|]. unfold checked_total in Hs.
  change wB with 9223372036854775808. lia.
Qed.

Lemma whole_notna (a : Z) :
  0 <= a <= checked_total -> PrimFloat.is_nan (B64.of_Z a) = false.
Proof.
  intros Ha. destruct (pair_checked a a ltac:(lia) ltac:(lia)) as [S _].
  apply andb_true_iff in S. destruct S as [S _].
  rewrite of_Z_nonneg by lia. now apply negb_true_iff in S.
Qed.

Lemma total_whole_nonneg (lv : list (string * Z)) :
  Forall (fun r => 0 <= snd r) lv -> 0 <= total_whole lv.
Proof.
  induction 1 as [|r lv Hr _ IH]; simpl; lia.
Qed.

Lemma fold_add_whole (lv : list (string * Z)) : forall a,
  Forall (fun r => 0 <= snd r) lv -> 0 <= a -> a + total_whole lv <= checked_total ->
  fold_left PrimFloat.add (map snd (whole_mw lv)) (B64.of_Z a)
  = B64.of_Z (a + total_whole lv).
Proof.
  induction lv as [|[lbl v] lv IH]; intros a Hn Ha Hs; simpl in *.
  - now rewrite Z.add_0_r.
  - inversion Hn as [|? ? Hv Hn']; subst. simpl in Hv.
    pose proof (total_whole_nonneg lv Hn').
    rewrite add_whole by lia. rewrite IH by (auto; lia). f_equal. lia.
Qed.

Lemma whole_filter_notna (lv : list (string * Z)) :
  Forall (fun r => 0 <= snd r) lv -> total_whole lv <= checked_total ->
  List.filter (fun x => negb (PrimFloat.is_nan x)) (map snd (whole_mw lv))
  = map snd (whole_mw lv).
Proof.
  induction lv as [|[lbl v] lv IH]; intros Hn Hs; simpl in *; [reflexivity|].
  inversion Hn as [|? ? Hv Hn']; subst. simpl in Hv.
  pose proof (total_whole_nonneg lv Hn').
  rewrite whole_notna by lia. simpl. now rewrite IH by (auto; lia).
Qed.

(** Whole numbers with a total up to [checked_total] add up to the same
    float, their exact sum, in whatever order and grouping they are
    added. *)
Lemma sum_in_any_order (t : summation) :
  values_from 0 t -> exact_sum t <= checked_total ->
  0 <= exact_sum t /\ float_sum t = B64.of_Z (exact_sum t).
Proof.
  induction t as [z|a IHa b IHb]; cbn [values_from exact_sum float_sum].
  - intros Hz _. split; [exact Hz | reflexivity].
  - intros [Ha Hb] Hs.
    assert (Ha0 : 0 <= exact_sum a).
    { clear -Ha. induction a as [z|a1 IH1 a2 IH2]; cbn [values_from exact_sum] in *;
        [exact Ha | destruct Ha; specialize (IH1 ltac:(assumption));
                    specialize (IH2 ltac:(assumption)); lia]. }
    assert (Hb0 : 0 <= exact_sum b).
    { clear -Hb. induction b as [z|b1 IH1 b2 IH2]; cbn [values_from exact_sum] in *;
        [exact Hb | destruct Hb; specialize (IH1 ltac:(assumption));
                    specialize (IH2 ltac:(assumption)); lia]. }
    destruct (IHa Ha ltac:(lia)) as [_ Ea]. destruct (IHb Hb ltac:(lia)) as [_ Eb].
    split; [lia|]. rewrite Ea, Eb. apply add_whole; lia.
Qed.

(** [series.sum()] of a column of whole numbers is their exact sum. *)
Lemma series_sum_whole (lv : list (string * Z)) :
  Forall (fun r => 0 <= snd r) lv -> total_whole lv <= checked_total ->
  series_sum (map snd (whole_mw lv)) = B64.of_Z (total_whole lv).
Proof.
  intros Hn Hs. unfold series_sum. cbn [isna fadd of_int b64_float64].
  rewrite whole_filter_notna by assumption.
  exact (fold_add_whole lv 0 Hn ltac:(lia) ltac:(lia)).
Qed.

Lemma whole_where_bounds (mask : string -> bool) (lv : list (string * Z)) :
  Forall (fun r => 0 <= snd r) lv ->
  Forall (fun r => 0 <= snd r) (List.filter (fun r => mask (fst r)) lv) /\
  0 <= whole_where mask lv <= total_whole lv.
Proof.
  unfold whole_where. induction 1 as [|r lv Hr Hn IH]; simpl.
  - split; [constructor | lia].
  - destruct IH as [IH1 IH2]. destruct (mask (fst r)); simpl; split; auto; lia.
Qed.

Lemma mw_where_whole (mask : string -> bool) (lv : list (string * Z)) :
  Forall (fun r => 0 <= snd r) lv -> total_whole lv <= checked_total ->
  mw_where mask (whole_mw lv) = B64.of_Z (whole_where mask lv).
Proof.
  intros Hn Hs. unfold mw_where, whole_where.
  destruct (whole_where_bounds mask lv Hn) as [Hn' Hb]. unfold whole_where in Hb.
  replace (List.filter (fun r : string * float => mask (fst r)) (whole_mw lv))
    with (whole_mw (List.filter (fun r => mask (fst r)) lv)).
  - apply series_sum_whole; [exact Hn' | lia].
  - unfold whole_mw. clear. induction lv as [|r lv IH]; simpl; [reflexivity|].
    destruct (mask (fst r)); simpl; now rewrite IH.
Qed.


End WholeMegawatts.

Section Decode.

Lemma digits2_size (p : positive) : digits2_pos p = Pos.size p.
Proof. induction p as [p IH|p IH|]; simpl; now rewrite ?IH. Qed.

Lemma digits_53 (m : Z) : 2 ^ 52 <= m < 2 ^ 53 -> Zdigits2 m = 53.
Proof.
  intros Hm. destruct m as [|p|p]; try lia. cbn [Zdigits2]. rewrite digits2_size.
  pose proof (Pos.size_gt p) as Hgt. pose proof (Pos.size_le p) as Hle.
  apply Pos2Z.pos_lt_pos in Hgt. apply Pos2Z.pos_le_pos in Hle.
  rewrite Pos2Z.inj_pow in Hgt, Hle. change (Z.pos p~0) with (2 * Z.pos p) in Hle.
  set (n := Z.pos (Pos.size p)) in *. assert (Hn : 0 < n) by (subst n; lia).
  destruct (Z.lt_trichotomy n 53) as [Hlt | [-> | Hgt']]; [|reflexivity|].
  - assert (2 ^ n <= 2 ^ 52) by (apply Z.pow_le_mono_r; lia). lia.
  - assert (2 ^ 54 <= 2 ^ n) by (apply Z.pow_le_mono_r; lia). lia.
Qed.

(** The sign, mantissa and exponent of a primitive float that is neither
    zero, nor infinite, nor [nan], from [frshiftexp] and
    [normfr_mantissa], when the mantissa has its 53 bits. *)
Lemma decode (p f : float) (se : PrimInt63.int) :
  PrimFloat.is_nan p = false -> PrimFloat.is_zero p = false ->
  PrimFloat.is_infinity p = false ->
  PrimFloat.frshiftexp p = (f, se) ->
  2 ^ 52 <= Uint63.to_Z (PrimFloat.normfr_mantissa f) < 2 ^ 53 ->
  -1074 <= Uint63.to_Z se - 2154 ->
  Prim2SF p = S754_finite (PrimFloat.get_sign p)
                (Z.to_pos (Uint63.to_Z (PrimFloat.normfr_mantissa f)))
                (Uint63.to_Z se - 2154).
Proof.
  intros Hnan Hzero Hinf Hfr Hm He. unfold Prim2SF. rewrite Hnan, Hzero, Hinf.
  unfold FloatOps.Z.frexp. rewrite Hfr.
  unfold shr_fexp. rewrite (digits_53 _ Hm).
  change FloatOps.shift with 2101. change FloatOps.prec with 53.
  change FloatOps.emax with 1024.
  replace (fexp 53 1024 (53 + (Uint63.to_Z se - 2101 - 53))
           - (Uint63.to_Z se - 2101 - 53)) with 0
    by (unfold fexp, SpecFloat.emin; lia).
  cbn [shr shr_record_of_loc shr_m].
  destruct (Uint63.to_Z (PrimFloat.normfr_mantissa f)) as [|q|q] eqn:Eq; try lia.
  cbn [Z.to_pos]. f_equal. lia.
Qed.

End Decode.

Section Closeness.
Local Open Scope Q_scope.


(** What a passed check says of [p]: it is a zero, or a positive number
    [M * 2^-(s+40)] whose mantissa, cut [s] bits short and rounded up,
    stays below [100 r / t + 2^-39] in units of [2^-40]. *)
Lemma close_ok_decoded (p : float) (r t : Z) :
  (0 <= r)%Z -> (0 < t <= checked_total)%Z -> (r <= checked_total)%Z ->
  close_ok p (Uint63.of_Z r) (Uint63.of_Z t) = true ->
  (exists sign, Prim2SF p = S754_zero sign) \/
  (exists M s : Z,
      (0 < M)%Z /\ (0 <= s)%Z /\
      Prim2SF p = S754_finite false (Z.to_pos M) (- (s + 40)) /\
      ((M / 2 ^ s + 1) * t <= r * 109951162777600 + 2 * t)%Z).
Proof.
  intros Hr Ht Hr' Hc. unfold close_ok in Hc.
  apply andb_true_iff in Hc. destruct Hc as [Hnan Hc]. apply negb_true_iff in Hnan.
  destruct (PrimFloat.is_zero p) eqn:Hz.
  { left. exists (PrimFloat.get_sign p). unfold Prim2SF. now rewrite Hnan, Hz. }
  right. cbn [orb] in Hc.
  destruct (PrimFloat.frshiftexp p) as [f se] eqn:Hfr.
  apply andb_true_iff in Hc. destruct Hc as [Hc C].
  apply andb_true_iff in Hc. destruct Hc as [Hc C5].
  apply andb_true_iff in C. destruct C as [C C0].
  apply andb_true_iff in C. destruct C as [C C1].
  apply andb_true_iff in C. destruct C as [C C2].
  apply andb_true_iff in C. destruct C as [C4 C3].
  apply negb_true_iff in Hc, C5.
  apply Uint63.leb_spec in C0, C1, C2, C4. apply Uint63.ltb_spec in C3.
  change (Uint63.to_Z 4503599627370496) with (2 ^ 52)%Z in C4.
  change (Uint63.to_Z 9007199254740992) with (2 ^ 53)%Z in C3.
  change (Uint63.to_Z 2092) with 2092%Z in C2.
  change (Uint63.to_Z 2108) with 2108%Z in C1.
  set (m := PrimFloat.normfr_mantissa f) in *.
  pose proof (decode p f se Hnan Hz Hc Hfr (conj C4 C3) ltac:(lia)) as D.
  rewrite C5 in D. fold m in D.
  assert (Es : Uint63.to_Z (PrimInt63.sub 2114 se) = (2114 - Uint63.to_Z se)%Z).
  { rewrite Uint63.sub_spec. change (Uint63.to_Z 2114) with 2114%Z.
    apply Z.mod_small. change wB with 9223372036854775808%Z. lia. }
  set (s := (2114 - Uint63.to_Z se)%Z) in *.
  exists (Uint63.to_Z m), s.
  split; [lia|]. split; [subst s; lia|]. split.
  { rewrite D. f_equal. subst s. lia. }
  assert (Hp : (64 <= 2 ^ s)%Z).
  { change 64%Z with (2 ^ 6)%Z. apply Z.pow_le_mono_r; subst s; lia. }
  assert (Hq : (0 <= Uint63.to_Z m / 2 ^ s <= 2 ^ 47)%Z).
  { split; [apply Z.div_pos; lia|].
    apply Z.div_le_upper_bound; [lia|].
    change (2 ^ 53)%Z with (64 * 2 ^ 47)%Z in C3. nia. }
  assert (Ea : Uint63.to_Z (PrimInt63.add (PrimInt63.lsr m (PrimInt63.sub 2114 se)) 1)
               = (Uint63.to_Z m / 2 ^ s + 1)%Z).
  { rewrite Uint63.add_spec, Uint63.lsr_spec, Es. change (Uint63.to_Z 1) with 1%Z.
    apply Z.mod_small. change wB with 9223372036854775808%Z. lia. }
  pose proof (to_of_Z t ltac:(lia)) as Et. pose proof (to_of_Z r ltac:(lia)) as Er.
  unfold checked_total in *.
  rewrite Uint63.add_spec, !Uint63.mul_spec, Ea, Et, Er in C0.
  change (Uint63.to_Z 109951162777600) with 109951162777600%Z in C0.
  change (Uint63.to_Z 2) with 2%Z in C0.
  change wB with 9223372036854775808%Z in C0.
  rewrite (Z.mod_small ((Uint63.to_Z m / 2 ^ s + 1) * t)) in C0 by nia.
  rewrite (Z.mod_small (r * 109951162777600)) in C0 by lia.
  rewrite (Z.mod_small (2 * t)) in C0 by lia.
  rewrite Z.mod_small in C0 by lia.
  exact C0.
Qed.


(** [int(p)] of a share that passed the check is an integer between 0 and
    100. *)
Lemma close_ok_int (p : float) (r t : Z) :
  (0 <= r <= t)%Z -> (0 < t <= checked_total)%Z ->
  close_ok p (Uint63.of_Z r) (Uint63.of_Z t) = true ->
  exists n : Z, B64.to_int p = Return n /\ (0 <= n <= 100)%Z.
Proof.
  intros Hr Ht Hc.
  destruct (close_ok_decoded p r t ltac:(lia) Ht ltac:(lia) Hc)
    as [(sign & D) | (M & s & HM & Hs & D & B)]; unfold B64.to_int; rewrite D.
  - exists 0%Z. split; [reflexivity | lia].
  - destruct (0 <=? - (s + 40))%Z eqn:Ee; [apply Z.leb_le in Ee; lia|].
    rewrite Z.opp_involutive, Z2Pos.id, Z.shiftr_div_pow2 by lia.
    eexists. split; [reflexivity|].
    assert (Hp : (0 < 2 ^ s)%Z) by (apply Z.pow_pos_nonneg; lia).
    assert (Hd : (M < (M / 2 ^ s + 1) * 2 ^ s)%Z).
    { pose proof (Z.mul_succ_div_gt M (2 ^ s) Hp). lia. }
    assert (E : (2 ^ (s + 40) = 2 ^ s * 1099511627776)%Z).
    { rewrite Z.pow_add_r by lia. reflexivity. }
    assert (Ha : (M / 2 ^ s + 1 <= 109951162777602)%Z) by nia.
    split; [apply Z.div_pos; lia|].
    assert (Hlt : (M / 2 ^ (s + 40) < 101)%Z)
      by (apply Z.div_lt_upper_bound; [lia|]; rewrite E; nia).
    lia.
Qed.

End Closeness.

Section WholeShares.
Local Open Scope Q_scope.


End WholeShares.

Section BinaryShares.
Local Open Scope Q_scope.


End BinaryShares.



(** ** A snapshot with no generation *)

Section ZeroTotal.
Local Open Scope Q_scope.

(** C1, as the code has it.  On a snapshot with non-negative values and
    total 0 the engine performs the divisions; they raise nothing and
    give not-a-number for the renewable, lignite and gas percentages and
    for the CO2 intensity. *)
Theorem zero_total_gives_nan (latest_value : list (string * xq)) :
  Forall nonneg (map snd latest_value) ->
  Xq.eq (total_generation_MW (derive_metrics latest_value)) (Fin 0) ->
  renewable_percentage (derive_metrics latest_value) = NaN /\
  lignite_percentage (derive_metrics latest_value) = NaN /\
  natural_gas_percentage (derive_metrics latest_value) = NaN /\
  co2_emissions (derive_metrics latest_value) = NaN.
Proof.
  intros Hn. pose proof (nonneg_finite _ Hn) as Hf.
  destruct (series_sum_finite latest_value Hf) as (t & Et & Ht).
  destruct (mw_where_finite (isin renewable_generation) latest_value Hf) as (r & Er & Hr).
  destruct (mw_where_finite (is_label "Fossil Brown coal/Lignite") latest_value Hf)
    as (l & El & Hl).
  destruct (mw_where_finite (is_label "Fossil Gas") latest_value Hf) as (g & Eg & Hg).
  unfold derive_metrics;
    cbn [total_generation_MW renewable_percentage lignite_percentage
         natural_gas_percentage co2_emissions].
  rewrite Et, Er, El, Eg. intros Hz. simpl in Hz.
  assert (Hzero : forall p s, s == sum_where p latest_value -> s == 0).
  { intros p s Hs.
    pose proof (sum_where_nonneg p _ Hn). pose proof (sum_where_le_total p _ Hn).
    rewrite <- Ht in *. lra. }
  pose proof (Hzero _ _ Hr) as Hr0. pose proof (Hzero _ _ Hl) as Hl0.
  pose proof (Hzero _ _ Hg) as Hg0.
  rewrite !share_undefined by assumption.
  repeat split. simpl.
  apply Qeq_bool_iff in Hz. rewrite Hz.
  rewrite sgn_zero; [reflexivity|]. rewrite Hl0, Hg0. reflexivity.
Qed.

(** The statement applies to the idle snapshot. *)
Lemma zero_total_gives_nan_witness :
  Forall nonneg (map snd idle_snapshot) /\
  Xq.eq (total_generation_MW (derive_metrics idle_snapshot)) (Fin 0) /\
  renewable_percentage (derive_metrics idle_snapshot) = NaN /\
  lignite_percentage (derive_metrics idle_snapshot) = NaN /\
  natural_gas_percentage (derive_metrics idle_snapshot) = NaN /\
  co2_emissions (derive_metrics idle_snapshot) = NaN.
Proof.
  assert (Hn : Forall nonneg (map snd idle_snapshot))
    by (simpl; repeat constructor; simpl; unfold Qle; simpl; lia).
  assert (Hz : Xq.eq (total_generation_MW (derive_metrics idle_snapshot)) (Fin 0))
    by (vm_compute; reflexivity).
  split; [exact Hn|]. split; [exact Hz|].
  exact (zero_total_gives_nan idle_snapshot Hn Hz).
Defined.

(** C1 fails as stated: with the idle snapshot the total is 0, the
    sidebar shows the renewable percentage as not-a-number, and
    [int(renewable_percentage)] raises [ValueError]; the same happens in
    binary64. *)
Lemma zero_total_reaches_the_page :
  total_generation_MW (derive_metrics idle_snapshot) = Fin 0 /\
  fst (sidebar_overview (derive_metrics idle_snapshot) no_cache)
    = Raise (ValueError "cannot convert float NaN to integer") /\
  ui (snd (sidebar_overview (derive_metrics idle_snapshot) no_cache))
    = [ Markdown "#### Quick Live Mix Overview";
        Formatted "Total Generation (MW)" (Fin 0);
        Formatted "Renewable Energy (%)" NaN ] /\
  total_generation_MW (derive_metrics idle_snapshot_b64) = 0%float /\
  fst (sidebar_overview (derive_metrics idle_snapshot_b64) no_cache)
    = Raise (ValueError "cannot convert float NaN to integer") /\
  ui (snd (sidebar_overview (derive_metrics idle_snapshot_b64) no_cache))
    = [ Markdown "#### Quick Live Mix Overview";
        Formatted "Total Generation (MW)" 0%float;
        Formatted "Renewable Energy (%)" nan ].
Proof.
  vm_compute. repeat split; reflexivity.
Qed.

End ZeroTotal.

(** ** Weather status *)

Section WeatherClaims.
Local Open Scope Q_scope.

Lemma Qgtb_true (a b : Q) : Qgtb a b = true <-> b < a.
Proof.
  unfold Qgtb. rewrite negb_true_iff, <- not_true_iff_false, Qle_bool_iff.
  split; [apply Qnot_le_lt | apply Qlt_not_le].
Qed.

Lemma Qgtb_false (a b : Q) : Qgtb a b = false <-> a <= b.
Proof.
  unfold Qgtb. rewrite negb_false_iff. apply Qle_bool_iff.
Qed.

Lemma Qltb_true (a b : Q) : Qltb a b = true <-> a < b.
Proof. unfold Qltb. apply (Qgtb_true b a). Qed.

Lemma Qltb_false (a b : Q) : Qltb a b = false <-> b <= a.
Proof. unfold Qltb. apply (Qgtb_false b a). Qed.

Lemma status_other (plant_type : string) (wind cloud : Q) :
  plant_type <> "Solar" -> plant_type <> "Wind" ->
  output_status plant_type wind cloud = "-".
Proof.
  intros Hs Hw. unfold output_status.
  apply String.eqb_neq in Hs, Hw. now rewrite Hs, Hw.
Qed.

(** C8. On a successful lookup the status follows the thresholds: Solar
    is low above 80% cloud cover, moderate above 50%, high otherwise;
    Wind is low below 3 m/s, moderate below 8 m/s, high otherwise; any
    other plant type is not applicable. *)
Theorem weather_status_mapping (w : weather_data) :
  (80 < clouds_all w ->
     status_of_text (snd (get_weather_data (Return w) "Solar")) = Some LowOutput) /\
  (50 < clouds_all w -> clouds_all w <= 80 ->
     status_of_text (snd (get_weather_data (Return w) "Solar")) = Some ModerateOutput) /\
  (clouds_all w <= 50 ->
     status_of_text (snd (get_weather_data (Return w) "Solar")) = Some HighOutput) /\
  (wind_speed w < 3 ->
     status_of_text (snd (get_weather_data (Return w) "Wind")) = Some LowOutput) /\
  (3 <= wind_speed w -> wind_speed w < 8 ->
     status_of_text (snd (get_weather_data (Return w) "Wind")) = Some ModerateOutput) /\
  (8 <= wind_speed w ->
     status_of_text (snd (get_weather_data (Return w) "Wind")) = Some HighOutput) /\
  (forall plant_type : string,
     plant_type <> "Solar" -> plant_type <> "Wind" ->
     status_of_text (snd (get_weather_data (Return w) plant_type)) = Some NotApplicable).
Proof.
  destruct w as [t ws cc]. unfold get_weather_data. cbn [snd temp wind_speed clouds_all].
  repeat split.
  - intros H1. unfold output_status. cbn [String.eqb Ascii.eqb Bool.eqb].
    apply Qgtb_true in H1. rewrite H1. reflexivity.
  - intros H1 H2. unfold output_status. cbn [String.eqb Ascii.eqb Bool.eqb].
    apply Qgtb_true in H1. apply Qgtb_false in H2. rewrite H1, H2. reflexivity.
  - intros H1. unfold output_status. cbn [String.eqb Ascii.eqb Bool.eqb].
    assert (H2 : cc <= 80) by lra.
    apply Qgtb_false in H1, H2. rewrite H1, H2. reflexivity.
  - intros H1. unfold output_status. cbn [String.eqb Ascii.eqb Bool.eqb].
    apply Qltb_true in H1. rewrite H1. reflexivity.
  - intros H1 H2. unfold output_status. cbn [String.eqb Ascii.eqb Bool.eqb].
    apply Qltb_false in H1. apply Qltb_true in H2. rewrite H1, H2. reflexivity.
  - intros H1. unfold output_status. cbn [String.eqb Ascii.eqb Bool.eqb].
    assert (H2 : 3 <= ws) by lra.
    apply Qltb_false in H1, H2. rewrite H1, H2. reflexivity.
  - intros pt Hs Hw. rewrite status_other by assumption. reflexivity.
Qed.

(** The spec's three examples: 85% cloud cover on a solar park, 5 m/s on
    a wind farm, a hydro plant. *)
Lemma weather_status_mapping_witness :
  80 < clouds_all overcast_breeze /\
  3 <= wind_speed overcast_breeze /\ wind_speed overcast_breeze < 8 /\
  "Hydro" <> "Solar" /\ "Hydro" <> "Wind" /\
  status_of_text (snd (get_weather_data (Return overcast_breeze) "Solar")) = Some LowOutput /\
  status_of_text (snd (get_weather_data (Return overcast_breeze) "Wind")) = Some ModerateOutput /\
  status_of_text (snd (get_weather_data (Return overcast_breeze) "Hydro")) = Some NotApplicable.
Proof.
  assert (H1 : 80 < clouds_all overcast_breeze) by (vm_compute; reflexivity).
  assert (H2 : 3 <= wind_speed overcast_breeze) by (vm_compute; discriminate).
  assert (H3 : wind_speed overcast_breeze < 8) by (vm_compute; reflexivity).
  assert (H4 : "Hydro" <> "Solar") by discriminate.
  assert (H5 : "Hydro" <> "Wind") by discriminate.
  pose proof (weather_status_mapping overcast_breeze) as (A & _ & _ & _ & B & _ & C).
  exact (conj H1 (conj H2 (conj H3 (conj H4 (conj H5
           (conj (A H1) (conj (B H2 H3) (C "Hydro" H4 H5)))))))).
Defined.

(** C10. With a successful lookup the Solar status is a function of the
    cloud cover alone, the Wind status of the wind speed alone, and the
    status of any other plant type is the same whatever the weather. *)
Theorem weather_status_dependence (w1 w2 : weather_data) :
  (clouds_all w1 == clouds_all w2 ->
     snd (get_weather_data (Return w1) "Solar") = snd (get_weather_data (Return w2) "Solar")) /\
  (wind_speed w1 == wind_speed w2 ->
     snd (get_weather_data (Return w1) "Wind") = snd (get_weather_data (Return w2) "Wind")) /\
  (forall plant_type : string,
     plant_type <> "Solar" -> plant_type <> "Wind" ->
     snd (get_weather_data (Return w1) plant_type)
     = snd (get_weather_data (Return w2) plant_type)).
Proof.
  destruct w1 as [t1 ws1 cc1], w2 as [t2 ws2 cc2].
  unfold get_weather_data. cbn [snd temp wind_speed clouds_all].
  repeat split.
  - intros E. unfold output_status, Qgtb. cbn [String.eqb Ascii.eqb Bool.eqb].
    assert (R : forall c, Qle_bool cc1 c = Qle_bool cc2 c)
      by (intros c; now rewrite E).
    now rewrite !R.
  - intros E. unfold output_status, Qltb. cbn [String.eqb Ascii.eqb Bool.eqb].
    assert (R : forall c, Qle_bool c ws1 = Qle_bool c ws2)
      by (intros c; now rewrite E).
    now rewrite !R.
  - intros pt Hs Hw. now rewrite !status_other.
Qed.

(** Two observations that differ in temperature and wind, not in cloud
    cover; two that differ in temperature and cloud cover, not in wind. *)
Lemma weather_status_dependence_witness :
  clouds_all (mkWeather 31 2 85) == clouds_all (mkWeather 4 12 85) /\
  wind_speed (mkWeather 31 5 10) == wind_speed (mkWeather 4 5 95) /\
  "Hydro" <> "Solar" /\ "Hydro" <> "Wind" /\
  snd (get_weather_data (Return (mkWeather 31 2 85)) "Solar")
    = snd (get_weather_data (Return (mkWeather 4 12 85)) "Solar") /\
  snd (get_weather_data (Return (mkWeather 31 5 10)) "Wind")
    = snd (get_weather_data (Return (mkWeather 4 5 95)) "Wind") /\
  snd (get_weather_data (Return (mkWeather 31 2 85)) "Hydro")
    = snd (get_weather_data (Return (mkWeather 4 12 85)) "Hydro").
Proof.
  assert (H1 : clouds_all (mkWeather 31 2 85) == clouds_all (mkWeather 4 12 85))
    by reflexivity.
  assert (H2 : wind_speed (mkWeather 31 5 10) == wind_speed (mkWeather 4 5 95))
    by reflexivity.
  assert (H4 : "Hydro" <> "Solar") by discriminate.
  assert (H5 : "Hydro" <> "Wind") by discriminate.
  pose proof (weather_status_dependence (mkWeather 31 2 85) (mkWeather 4 12 85))
    as (A & _ & C).
  pose proof (weather_status_dependence (mkWeather 31 5 10) (mkWeather 4 5 95))
    as (_ & B & _).
  exact (conj H1 (conj H2 (conj H4 (conj H5
           (conj (A H1) (conj (B H2) (C "Hydro" H4 H5))))))).
Defined.

End WeatherClaims.

(** ** Snapshot selection: [dropna().iloc[-1]] *)

Section SnapshotClaims.
Context {F : Type} `{Float64 F}.

Lemma filter_none (p : Timestamp * list F -> bool) (l : list (Timestamp * list F)) :
  Forall (fun r => p r = false) l -> List.filter p l = [].
Proof.
  induction 1 as [|r l Hr _ IH]; simpl; [reflexivity|]. now rewrite Hr.
Qed.

(** The last row that passes [p] is what [filter] followed by [last]
    finds. *)
Lemma last_filter_split (p : Timestamp * list F -> bool)
      (before after : list (Timestamp * list F)) (r : Timestamp * list F) :
  p r = true -> Forall (fun x => p x = false) after ->
  last (List.filter p ((before ++ r :: after)%list)) = Some r.
Proof.
  intros Hr Ha. rewrite List.filter_app. simpl. rewrite Hr, (filter_none p after Ha).
  apply last_snoc.
Qed.

Lemma last_filter_found (p : Timestamp * list F -> bool) (l : list (Timestamp * list F)) :
  forall r, last (List.filter p l) = Some r ->
  exists before after : list (Timestamp * list F),
    l = (before ++ r :: after)%list /\ p r = true /\ Forall (fun x => p x = false) after.
Proof.
  induction l as [|x l IH] using rev_ind; intros r Hl; [discriminate|].
  rewrite List.filter_app in Hl. simpl in Hl. destruct (p x) eqn:Hx.
  - rewrite last_snoc in Hl. injection Hl as <-.
    exists l, []. repeat split; auto.
  - rewrite app_nil_r in Hl. destruct (IH r Hl) as (b & a & -> & Hr & Ha).
    exists b, (a ++ [x])%list. rewrite <- app_assoc. repeat split; auto.
    apply Forall_app. split; auto.
Qed.

(** C9. The snapshot is the last row of the fetched frame that has no
    missing cell, with that row's timestamp: whenever the frame splits
    into rows, a complete row and incomplete rows after it, the fetch
    returns that row's values by source label and its timestamp; and
    whatever the fetch returns is such a row. *)
Theorem snapshot_is_last_complete_row
        (client : EntsoeClient F) (start_date end_date : date) (w : world F)
        (df : DataFrame F) :
  query_generation client EIC_GR (start_time_of start_date) (end_time_of end_date)
    = Return df ->
  (forall (before : list (Timestamp * list F)) r after,
      rows df = (before ++ r :: after)%list ->
      row_complete r = true ->
      Forall (fun x => row_complete x = false) after ->
      fst (get_generation_data_body client start_date end_date w)
        = Return (df, source_mw (columns df) r, fst r))
  /\ (forall latest_value data_time,
        fst (get_generation_data_body client start_date end_date w)
          = Return (df, latest_value, data_time) ->
        exists (before : list (Timestamp * list F)) r after,
          rows df = (before ++ r :: after)%list /\ row_complete r = true /\
          Forall (fun x => row_complete x = false) after /\
          latest_value = source_mw (columns df) r /\ data_time = fst r).
Proof.
  intros Hq. unfold get_generation_data_body, call_client, lift, iloc_last, dropna.
  unfold mbind, M_bind, mret, M_ret. rewrite Hq. cbn [rows columns fst snd]. split.
  - intros before r after Hrows Hr Ha. rewrite Hrows.
    now rewrite (last_filter_split row_complete before after r Hr Ha).
  - intros lv dt. destruct (last (List.filter row_complete (rows df))) as [r|] eqn:Hl;
      cbn [fst]; [|discriminate].
    intros E. injection E as <- <-.
    destruct (last_filter_found row_complete (rows df) r Hl) as (b & a & Hrows & Hr & Ha).
    exists b, r, a. repeat split; assumption.
Qed.

End SnapshotClaims.

(** C9 on a frame whose most recent row misses a value: the snapshot is
    the row before it, not the most recent row with the gap filled. *)
Lemma snapshot_is_last_complete_row_witness :
  query_generation healthy_client EIC_GR
    (start_time_of (mkDate 2025 6 1)) (end_time_of (mkDate 2025 6 1)) = Return gappy_frame /\
  fst (get_generation_data_body healthy_client (mkDate 2025 6 1) (mkDate 2025 6 1) no_cache)
    = Return (gappy_frame, [("Solar", Fin 320); ("Fossil Gas", Fin 90)], 1748728800).
Proof.
  assert (Hq : query_generation healthy_client EIC_GR
                 (start_time_of (mkDate 2025 6 1)) (end_time_of (mkDate 2025 6 1))
               = Return gappy_frame) by reflexivity.
  split; [exact Hq|].
  refine (proj1 (snapshot_is_last_complete_row healthy_client (mkDate 2025 6 1)
                   (mkDate 2025 6 1) no_cache gappy_frame Hq)
            [(1748725200, [Fin 300; Fin 100])]
            (1748728800, [Fin 320; Fin 90])
            [(1748732400, [NaN; Fin 95])] _ _ _).
  - reflexivity.
  - reflexivity.
  - repeat constructor.
Defined.

(** ** The time range of a fetch *)

Section TimeRangeClaims.

(** On a day without a clock change the range ends at 23:59:59 of the
    end date. *)
Lemma end_time_regular_day (end_date : date) :
  Calendar.is_dst (year end_date) (Calendar.days_from_civil end_date * 86400 - 10800)
  = Calendar.is_dst (year end_date)
      (Calendar.days_from_civil end_date * 86400 + 86399 - 10800) ->
  end_time_of end_date = end_of_day end_date.
Proof.
  unfold end_time_of, end_of_day, Calendar.localize. intros E.
  rewrite Z.add_0_r, E. clear E.
  destruct (Calendar.is_dst _ _); lia.
Qed.

Lemma is_dst_midnight (y k1 k2 n : Z) (shift : Z) :
  0 <= shift < 86400 ->
  n <> k1 -> n <> k2 ->
  ((k1 * 86400 + 3600 <=? n * 86400 - 10800) && (n * 86400 - 10800 <? k2 * 86400 + 3600))
  = ((k1 * 86400 + 3600 <=? n * 86400 + shift - 10800)
     && (n * 86400 + shift - 10800 <? k2 * 86400 + 3600)).
Proof.
  intros Hs H1 H2.
  destruct (Z.leb_spec (k1 * 86400 + 3600) (n * 86400 - 10800));
    destruct (Z.ltb_spec (n * 86400 - 10800) (k2 * 86400 + 3600));
    destruct (Z.leb_spec (k1 * 86400 + 3600) (n * 86400 + shift - 10800));
    destruct (Z.ltb_spec (n * 86400 + shift - 10800) (k2 * 86400 + 3600));
    try reflexivity; exfalso; lia.
Qed.

(** Away from the last Sundays of March and October the range ends at
    23:59:59 of the end date. *)
Lemma end_time_without_clock_change (end_date : date) :
  Calendar.days_from_civil end_date <> Calendar.last_sunday (year end_date) 3 ->
  Calendar.days_from_civil end_date <> Calendar.last_sunday (year end_date) 10 ->
  end_time_of end_date = end_of_day end_date.
Proof.
  intros H3 H10. apply end_time_regular_day.
  unfold Calendar.is_dst, Calendar.dst_start, Calendar.dst_end.
  pose proof (is_dst_midnight (year end_date) _ _ _ 86399 ltac:(lia) H3 H10) as E.
  exact E.
Qed.


(** C6 at the two clock changes of 2025.  The range starts at local
    midnight of the start date; for the end date 2025-03-30 (clocks go
    forward) it ends one hour after 23:59:59 of that date, at 00:59:59
    on 2025-03-31 wall-clock time; for the end date 2025-10-26 (clocks go
    back) it ends one hour before, at 22:59:59 of that date. *)
Theorem end_time_on_clock_change_days :
  Calendar.wall_clock 2025 (start_time_of (mkDate 2025 3 30))
    = Calendar.days_from_civil (mkDate 2025 3 30) * 86400 /\
  end_time_of (mkDate 2025 3 30) = end_of_day (mkDate 2025 3 30) + 3600 /\
  Calendar.wall_clock 2025 (end_time_of (mkDate 2025 3 30))
    = Calendar.days_from_civil (mkDate 2025 3 31) * 86400 + (0 * 3600 + 59 * 60 + 59) /\
  end_time_of (mkDate 2025 10 26) = end_of_day (mkDate 2025 10 26) - 3600 /\
  Calendar.wall_clock 2025 (end_time_of (mkDate 2025 10 26))
    = Calendar.days_from_civil (mkDate 2025 10 26) * 86400 + (22 * 3600 + 59 * 60 + 59) /\
  end_time_of (mkDate 2025 6 1) = end_of_day (mkDate 2025 6 1).
Proof.
  vm_compute. repeat split; reflexivity.
Qed.

(** C7 fails as stated: with the start date 2025-06-02 after the end
    date 2025-06-01 the fetch raises nothing, queries the provider with
    a range whose start is after its end, and returns the frame. *)
Lemma inverted_range_is_fetched :
  fst (get_generation_data healthy_client 0 (mkDate 2025 6 2) (mkDate 2025 6 1) no_cache)
    = Return (gappy_frame, [("Solar", Fin 320); ("Fossil Gas", Fin 90)], 1748728800) /\
  calls (snd (get_generation_data healthy_client 0 (mkDate 2025 6 2) (mkDate 2025 6 1)
                no_cache))
    = [ mkQuery OpGeneration EIC_GR 1748811600 1748811599 ] /\
  start_time_of (mkDate 2025 6 2) = 1748811600 /\
  end_time_of (mkDate 2025 6 1) = 1748811599.
Proof.
  vm_compute. repeat split; reflexivity.
Qed.

(** C7, as the code has it.  Whatever the order of the two dates, no
    fetch function checks it: each one computes the range and passes it
    to the provider, and the first thing it does is that query. *)
Theorem range_is_queried_unchecked
        (client : EntsoeClient xq) (start_date end_date : date) (w : world xq) :
  calls (snd (get_generation_data_body client start_date end_date w))
    = (calls w ++ [mkQuery OpGeneration EIC_GR
                     (start_time_of start_date) (end_time_of end_date)])%list /\
  calls (snd (get_consumption_data_body client start_date end_date w))
    = (calls w ++ [mkQuery OpLoad EIC_GR
                     (start_time_of start_date) (end_time_of end_date)])%list /\
  calls (snd (get_price_data client start_date end_date w))
    = (calls w ++ [mkQuery OpDayAheadPrices EIC_GR
                     (start_time_of start_date) (end_time_of end_date)])%list /\
  calls (snd (get_generation_forecast_body client start_date end_date w))
    = (calls w ++ [mkQuery OpGenerationForecast EIC_GR
                     (start_time_of start_date) (end_time_of end_date)])%list /\
  calls (snd (get_consumption_forecast_body client start_date end_date w))
    = (calls w ++ [mkQuery OpLoadForecast EIC_GR
                     (start_time_of start_date) (end_time_of end_date)])%list.
Proof.
  unfold get_generation_data_body, get_consumption_data_body, get_price_data,
    get_generation_forecast_body, get_consumption_forecast_body,
    try_except, call_client, lift, emit, mbind, M_bind, mret, M_ret.
  repeat split;
    repeat match goal with
           | |- context [match ?x with Return _ => _ | Raise _ => _ end] => destruct x
           end;
    reflexivity.
Qed.

End TimeRangeClaims.

(** ** Failures of a fetch *)

Section FailureClaims.
Context {F : Type} `{Float64 F}.

(** The three fetches with a [try]/[except] return whatever the provider
    does; after an exception they return the empty frame. *)
Lemma price_failure_contained
      (client : EntsoeClient F) (start_date end_date : date) (w : world F) :
  exists df, fst (get_price_data client start_date end_date w) = Return df /\
    (forall e, query_day_ahead_prices client EIC_GR (start_time_of start_date)
                 (end_time_of end_date) = Raise e -> df = empty_frame).
Proof.
  unfold get_price_data, try_except, call_client, emit, mbind, M_bind, mret, M_ret.
  destruct (query_day_ahead_prices _ _ _ _) as [df|e]; cbn [fst].
  - exists df. split; [reflexivity | discriminate].
  - exists empty_frame. split; reflexivity.
Qed.

Lemma generation_forecast_failure_contained
      (client : EntsoeClient F) (start_date end_date : date) (w : world F) :
  exists df, fst (get_generation_forecast_body client start_date end_date w) = Return df /\
    (forall e, query_generation_forecast client EIC_GR (start_time_of start_date)
                 (end_time_of end_date) = Raise e -> df = empty_frame).
Proof.
  unfold get_generation_forecast_body, try_except, call_client, emit,
    mbind, M_bind, mret, M_ret.
  destruct (query_generation_forecast _ _ _ _) as [df|e]; cbn [fst].
  - exists df. split; [reflexivity | discriminate].
  - exists empty_frame. split; reflexivity.
Qed.

Lemma consumption_forecast_failure_contained
      (client : EntsoeClient F) (start_date end_date : date) (w : world F) :
  exists df, fst (get_consumption_forecast_body client start_date end_date w) = Return df /\
    (forall e, query_load_forecast client EIC_GR (start_time_of start_date)
                 (end_time_of end_date) = Raise e -> df = empty_frame).
Proof.
  unfold get_consumption_forecast_body, try_except, call_client, emit,
    mbind, M_bind, mret, M_ret.
  destruct (query_load_forecast _ _ _ _) as [df|e]; cbn [fst].
  - exists df. split; [reflexivity | discriminate].
  - exists empty_frame. split; reflexivity.
Qed.

(** The two fetches without one let the exception through, and the
    script stops at the call: nothing below the date filters is shown. *)
Lemma generation_failure_escapes
      (client : EntsoeClient F) (now : Z) (start_date end_date : date)
      (w : world F) (e : exn) :
  query_generation client EIC_GR (start_time_of start_date) (end_time_of end_date)
    = Raise e ->
  generation_cache w !! (start_date, end_date) = None ->
  fst (get_generation_data client now start_date end_date w) = Raise e.
Proof.
  intros Hq Hc. unfold get_generation_data, cache_data. rewrite Hc.
  unfold run_and_store, get_generation_data_body, call_client, lift,
    mbind, M_bind, mret, M_ret.
  rewrite Hq. reflexivity.
Qed.

Lemma consumption_failure_escapes
      (client : EntsoeClient F) (now : Z) (start_date end_date : date)
      (w : world F) (e : exn) :
  query_load client EIC_GR (start_time_of start_date) (end_time_of end_date)
    = Raise e ->
  consumption_cache w !! (start_date, end_date) = None ->
  fst (get_consumption_data client now start_date end_date w) = Raise e.
Proof.
  intros Hq Hc. unfold get_consumption_data, cache_data. rewrite Hc.
  unfold run_and_store, get_consumption_data_body, call_client.
  rewrite Hq. reflexivity.
Qed.

Lemma script_stops_on_generation_failure
      (client : EntsoeClient F) (OWM : Q -> Q -> result weather_data) (now : Z)
      (start_date end_date today : date) (refresh : bool) (w : world F) (e : exn) :
  query_generation client EIC_GR (start_time_of start_date) (end_time_of end_date)
    = Raise e ->
  generation_cache w !! (start_date, end_date) = None ->
  script client OWM now start_date end_date today refresh w
  = (Raise e,
     mkWorld (generation_cache w) (consumption_cache w)
             (generation_forecast_cache w) (consumption_forecast_cache w)
             (calls w ++ [mkQuery OpGeneration EIC_GR (start_time_of start_date)
                                  (end_time_of end_date)])
             ((ui w ++ [Markdown "Hellas Grid Monitor"]) ++ [Markdown "Date Filters"])).
Proof.
  intros Hq Hc. unfold script.
  unfold mbind at 1 2 3. unfold M_bind at 1 2 3. unfold emit at 1 2.
  unfold get_generation_data, cache_data. cbn [generation_cache]. rewrite Hc.
  unfold run_and_store, get_generation_data_body, call_client, lift,
    mbind, M_bind, mret, M_ret.
  rewrite Hq. reflexivity.
Qed.

End FailureClaims.

(** C2 at the failing inputs.  With the generation query timing out the
    script raises the provider's exception at the fetch and shows nothing
    below the date filters; the same with the load query timing out.  With
    the price query timing out the script runs to its end: the error
    banner, the price metric without a value, and the generation and load
    sections are all on the page; a forecast query timing out likewise
    leaves the script running, with a warning in the forecast tab. *)
Theorem fetch_failure_by_source :
  (fst (script (client_failing OpGeneration) weather_down 0
          (mkDate 2025 6 1) (mkDate 2025 6 1) (mkDate 2025 6 2) false no_cache)
     = Raise timeout /\
   ui (snd (script (client_failing OpGeneration) weather_down 0
              (mkDate 2025 6 1) (mkDate 2025 6 1) (mkDate 2025 6 2) false no_cache))
     = [Markdown "Hellas Grid Monitor"; Markdown "Date Filters"]) /\
  (fst (script (client_failing OpLoad) weather_down 0
          (mkDate 2025 6 1) (mkDate 2025 6 1) (mkDate 2025 6 2) false no_cache)
     = Raise timeout /\
   ui (snd (script (client_failing OpLoad) weather_down 0
              (mkDate 2025 6 1) (mkDate 2025 6 1) (mkDate 2025 6 2) false no_cache))
     = [Markdown "Hellas Grid Monitor"; Markdown "Date Filters"]) /\
  (fst (script (client_failing OpDayAheadPrices) weather_down 0
          (mkDate 2025 6 1) (mkDate 2025 6 1) (mkDate 2025 6 2) false no_cache)
     = Return tt /\
   let page := ui (snd (script (client_failing OpDayAheadPrices) weather_down 0
                          (mkDate 2025 6 1) (mkDate 2025 6 1) (mkDate 2025 6 2)
                          false no_cache)) in
   In (StError "Error fetching price data: Read timed out.") page /\
   In (Metric "Day-Ahead Price (EUR/MWh)" None) page /\
   In (Chart "Live Generation Mix") page /\
   In (Chart "Demand Curve Evolution (Last 24h)") page /\
   In (StWarning "No price data available for the selected date range.") page) /\
  (fst (script (client_failing OpGenerationForecast) weather_down 0
          (mkDate 2025 6 1) (mkDate 2025 6 1) (mkDate 2025 6 2) false no_cache)
     = Return tt /\
   In (StWarning "No generation forecast data available for the next 24 hours.")
      (ui (snd (script (client_failing OpGenerationForecast) weather_down 0
                  (mkDate 2025 6 1) (mkDate 2025 6 1) (mkDate 2025 6 2) false no_cache)))) /\
  (fst (script (client_failing OpLoadForecast) weather_down 0
          (mkDate 2025 6 1) (mkDate 2025 6 1) (mkDate 2025 6 2) false no_cache)
     = Return tt /\
   In (StWarning "No consumption forecast data available for the next 24 hours.")
      (ui (snd (script (client_failing OpLoadForecast) weather_down 0
                  (mkDate 2025 6 1) (mkDate 2025 6 1) (mkDate 2025 6 2) false no_cache)))).
Proof.
  vm_compute. intuition reflexivity.
Qed.

(** ** The cache *)

Section CacheClaims.
Context {F : Type} `{Float64 F}.

Section Generic.
Context {V : Type}.
Variable ttl : Z.
Variable get : world F -> gmap (date * date) (entry V (widget F)).
Variable set : gmap (date * date) (entry V (widget F)) -> world F -> world F.
Hypothesis get_set : forall c w, get (set c w) = c.
Hypothesis calls_set : forall c w, calls (set c w) = calls w.

(** A fresh entry is served without running the body. *)
Lemma cache_hit (now : Z) (key : date * date) (body : M F V)
      (w : world F) (e : entry V (widget F)) :
  get w !! key = Some e -> now - fetched_at e < ttl ->
  fst (cache_data ttl get set now key body w) = Return (value e) /\
  calls (snd (cache_data ttl get set now key body w)) = calls w.
Proof.
  intros Hg Hf. unfold cache_data, fresh. rewrite Hg.
  apply Z.ltb_lt in Hf. rewrite Hf. split; reflexivity.
Qed.

(** What a call that found no entry returned is what the entry
    holds afterwards, stamped with the time of that call. *)
Lemma cache_miss_stores (t0 : Z) (key : date * date) (body : M F V)
      (w w1 : world F) (v : V) :
  get w !! key = None ->
  cache_data ttl get set t0 key body w = (Return v, w1) ->
  exists shown, get w1 !! key = Some (mkEntry v t0 shown).
Proof.
  intros Hg. unfold cache_data, run_and_store. rewrite Hg.
  destruct (body w) as [[v'|e] w']; intros E; [|discriminate].
  injection E as <- <-. eexists. rewrite get_set. apply lookup_insert_eq.
Qed.

Lemma cache_serves_again (t0 t1 : Z) (key : date * date) (body1 body2 : M F V)
      (w w1 : world F) (v : V) :
  t1 - t0 < ttl ->
  get w !! key = None ->
  cache_data ttl get set t0 key body1 w = (Return v, w1) ->
  fst (cache_data ttl get set t1 key body2 w1) = Return v /\
  calls (snd (cache_data ttl get set t1 key body2 w1)) = calls w1.
Proof.
  intros Ht Hg E. destruct (cache_miss_stores t0 key body1 w w1 v Hg E) as (shown & Hs).
  exact (cache_hit t1 key body2 w1 _ Hs Ht).
Qed.
End Generic.

(** A forecast fetch whose query raised returns the empty frame through
    the decorator. *)
Lemma failed_generation_forecast_returns_empty
      (client : EntsoeClient F) (now : Z) (start_date end_date : date)
      (w : world F) (e : exn) :
  generation_forecast_cache w !! (start_date, end_date) = None ->
  query_generation_forecast client EIC_GR (start_time_of start_date)
    (end_time_of end_date) = Raise e ->
  exists w1, get_generation_forecast client now start_date end_date w
             = (Return empty_frame, w1).
Proof.
  intros Hc Hq. unfold get_generation_forecast, cache_data. rewrite Hc.
  unfold run_and_store, get_generation_forecast_body, try_except, call_client, emit,
    mbind, M_bind, mret, M_ret.
  rewrite Hq. eexists. reflexivity.
Qed.

Lemma failed_consumption_forecast_returns_empty
      (client : EntsoeClient F) (now : Z) (start_date end_date : date)
      (w : world F) (e : exn) :
  consumption_forecast_cache w !! (start_date, end_date) = None ->
  query_load_forecast client EIC_GR (start_time_of start_date)
    (end_time_of end_date) = Raise e ->
  exists w1, get_consumption_forecast client now start_date end_date w
             = (Return empty_frame, w1).
Proof.
  intros Hc Hq. unfold get_consumption_forecast, cache_data. rewrite Hc.
  unfold run_and_store, get_consumption_forecast_body, try_except, call_client, emit,
    mbind, M_bind, mret, M_ret.
  rewrite Hq. eexists. reflexivity.
Qed.

(** C3, as the code has it.  The generation, load, generation-forecast
    and load-forecast fetches are memoized with one time-to-live of 900
    seconds: what a call at [t0] that found no entry returned is
    returned again, without a query to the provider, by any call with
    the same dates at a time [t1] with [t1 - t0 < 900].  This holds in
    particular for the empty frame that a forecast fetch returns when
    its query raised. *)
Theorem fetches_memoized_for_900_seconds
        (client1 client2 : EntsoeClient F) (t0 t1 : Z)
        (start_date end_date : date) (w : world F) :
  t1 - t0 < 900 ->
  (forall v w1,
      generation_cache w !! (start_date, end_date) = None ->
      get_generation_data client1 t0 start_date end_date w = (Return v, w1) ->
      fst (get_generation_data client2 t1 start_date end_date w1) = Return v /\
      calls (snd (get_generation_data client2 t1 start_date end_date w1)) = calls w1) /\
  (forall v w1,
      consumption_cache w !! (start_date, end_date) = None ->
      get_consumption_data client1 t0 start_date end_date w = (Return v, w1) ->
      fst (get_consumption_data client2 t1 start_date end_date w1) = Return v /\
      calls (snd (get_consumption_data client2 t1 start_date end_date w1)) = calls w1) /\
  (forall v w1,
      generation_forecast_cache w !! (start_date, end_date) = None ->
      get_generation_forecast client1 t0 start_date end_date w = (Return v, w1) ->
      fst (get_generation_forecast client2 t1 start_date end_date w1) = Return v /\
      calls (snd (get_generation_forecast client2 t1 start_date end_date w1)) = calls w1) /\
  (forall v w1,
      consumption_forecast_cache w !! (start_date, end_date) = None ->
      get_consumption_forecast client1 t0 start_date end_date w = (Return v, w1) ->
      fst (get_consumption_forecast client2 t1 start_date end_date w1) = Return v /\
      calls (snd (get_consumption_forecast client2 t1 start_date end_date w1)) = calls w1) /\
  (forall e,
      generation_forecast_cache w !! (start_date, end_date) = None ->
      query_generation_forecast client1 EIC_GR (start_time_of start_date)
        (end_time_of end_date) = Raise e ->
      let w1 := snd (get_generation_forecast client1 t0 start_date end_date w) in
      fst (get_generation_forecast client2 t1 start_date end_date w1) = Return empty_frame /\
      calls (snd (get_generation_forecast client2 t1 start_date end_date w1)) = calls w1) /\
  (forall e,
      consumption_forecast_cache w !! (start_date, end_date) = None ->
      query_load_forecast client1 EIC_GR (start_time_of start_date)
        (end_time_of end_date) = Raise e ->
      let w1 := snd (get_consumption_forecast client1 t0 start_date end_date w) in
      fst (get_consumption_forecast client2 t1 start_date end_date w1) = Return empty_frame /\
      calls (snd (get_consumption_forecast client2 t1 start_date end_date w1)) = calls w1).
Proof.
  intros Ht. split; [|split; [|split; [|split; [|split]]]].
  - intros v w1 Hc E.
    eapply (cache_serves_again 900 generation_cache set_generation_cache);
      eauto; reflexivity.
  - intros v w1 Hc E.
    eapply (cache_serves_again 900 consumption_cache set_consumption_cache);
      eauto; reflexivity.
  - intros v w1 Hc E.
    eapply (cache_serves_again 900 generation_forecast_cache
              set_generation_forecast_cache); eauto; reflexivity.
  - intros v w1 Hc E.
    eapply (cache_serves_again 900 consumption_forecast_cache
              set_consumption_forecast_cache); eauto; reflexivity.
  - intros e Hc Hq. cbv zeta.
    destruct (failed_generation_forecast_returns_empty client1 t0 _ _ w e Hc Hq)
      as (w1 & E).
    rewrite E. cbn [snd].
    eapply (cache_serves_again 900 generation_forecast_cache
              set_generation_forecast_cache); eauto; reflexivity.
  - intros e Hc Hq. cbv zeta.
    destruct (failed_consumption_forecast_returns_empty client1 t0 _ _ w e Hc Hq)
      as (w1 & E).
    rewrite E. cbn [snd].
    eapply (cache_serves_again 900 consumption_forecast_cache
              set_consumption_forecast_cache); eauto; reflexivity.
Qed.

End CacheClaims.

(** C3 applied to a generation-forecast query that timed out at time 0:
    61 seconds later the healthy provider is not asked, the cached empty
    frame is returned. *)
Lemma fetches_memoized_for_900_seconds_witness :
  61 - 0 < 900 /\
  generation_forecast_cache (no_cache (F := xq)) !! (mkDate 2025 6 2, mkDate 2025 6 3) = None /\
  query_generation_forecast (client_failing OpGenerationForecast) EIC_GR
    (start_time_of (mkDate 2025 6 2)) (end_time_of (mkDate 2025 6 3)) = Raise timeout /\
  fst (get_generation_forecast healthy_client 61 (mkDate 2025 6 2) (mkDate 2025 6 3)
         (snd (get_generation_forecast (client_failing OpGenerationForecast) 0
                 (mkDate 2025 6 2) (mkDate 2025 6 3) no_cache)))
    = Return empty_frame /\
  calls (snd (get_generation_forecast healthy_client 61 (mkDate 2025 6 2) (mkDate 2025 6 3)
                (snd (get_generation_forecast (client_failing OpGenerationForecast) 0
                        (mkDate 2025 6 2) (mkDate 2025 6 3) no_cache))))
    = calls (snd (get_generation_forecast (client_failing OpGenerationForecast) 0
                    (mkDate 2025 6 2) (mkDate 2025 6 3) no_cache)).
Proof.
  assert (Ht : 61 - 0 < 900) by lia.
  assert (Hc : generation_forecast_cache (no_cache (F := xq))
               !! (mkDate 2025 6 2, mkDate 2025 6 3) = None) by reflexivity.
  assert (Hq : query_generation_forecast (client_failing OpGenerationForecast) EIC_GR
                 (start_time_of (mkDate 2025 6 2)) (end_time_of (mkDate 2025 6 3))
               = Raise timeout) by reflexivity.
  pose proof (fetches_memoized_for_900_seconds
                (client_failing OpGenerationForecast) healthy_client 0 61
                (mkDate 2025 6 2) (mkDate 2025 6 3) no_cache Ht)
    as (_ & _ & _ & _ & A & _).
  exact (conj Ht (conj Hc (conj Hq (A timeout Hc Hq)))).
Defined.

(** C3 fails as stated.  The price fetch is not memoized: two calls with
    the same dates at the same time query the provider twice.  A failed
    fetch has no shorter time-to-live: the empty frame stored at time 0
    after a timeout of the generation-forecast query is still served 61
    and 899 seconds later, without a query, and the provider is asked
    again only when the entry is 900 seconds old. *)
Lemma price_uncached_and_failure_kept_900_seconds :
  calls (snd (get_price_data healthy_client (mkDate 2025 6 1) (mkDate 2025 6 1)
                (snd (get_price_data healthy_client (mkDate 2025 6 1) (mkDate 2025 6 1)
                        no_cache))))
    = [ mkQuery OpDayAheadPrices EIC_GR 1748725200 1748811599;
        mkQuery OpDayAheadPrices EIC_GR 1748725200 1748811599 ] /\
  (let w1 := snd (get_generation_forecast (client_failing OpGenerationForecast) 0
                    (mkDate 2025 6 2) (mkDate 2025 6 3) no_cache) in
   calls w1 = [ mkQuery OpGenerationForecast EIC_GR 1748811600 1748984399 ] /\
   get_generation_forecast healthy_client 61 (mkDate 2025 6 2) (mkDate 2025 6 3) w1
     = (Return empty_frame,
        mkWorld (generation_cache w1) (consumption_cache w1)
                (generation_forecast_cache w1) (consumption_forecast_cache w1)
                (calls w1)
                (ui w1 ++ [StError "Error fetching generation forecast data: Read timed out."])) /\
   fst (get_generation_forecast healthy_client 899 (mkDate 2025 6 2) (mkDate 2025 6 3) w1)
     = Return empty_frame /\
   calls (snd (get_generation_forecast healthy_client 899 (mkDate 2025 6 2)
                 (mkDate 2025 6 3) w1)) = calls w1 /\
   fst (get_generation_forecast healthy_client 900 (mkDate 2025 6 2) (mkDate 2025 6 3) w1)
     = Return gappy_frame /\
   calls (snd (get_generation_forecast healthy_client 900 (mkDate 2025 6 2)
                 (mkDate 2025 6 3) w1))
     = [ mkQuery OpGenerationForecast EIC_GR 1748811600 1748984399;
         mkQuery OpGenerationForecast EIC_GR 1748811600 1748984399 ]).
Proof.
  vm_compute. repeat split; reflexivity.
Qed.

(* ===================================================================== *)
(** * Further properties of the script *)
(* ===================================================================== *)

(** ** Reasoning about pieces of script *)

Section Outcomes.
Context {F : Type} `{Float64 F}.

Lemma returns_ret {A} (a : A) (w : world F) (P : A -> world F -> Prop) :
  P a w -> returns (mret a) w P.
Proof. intros HP. exists a, w. split; [reflexivity | exact HP]. Qed.

Lemma returns_bind {A B} (m : M F A) (k : A -> M F B) (w : world F)
      (Q : B -> world F -> Prop) :
  returns m w (fun a w' => returns (k a) w' Q) -> returns (mbind k m) w Q.
Proof.
  intros (a & w' & Em & (b & w'' & Ek & HQ)). exists b, w''. split; [|exact HQ].
  unfold mbind, M_bind. rewrite Em. exact Ek.
Qed.

Lemma returns_weaken {A} (m : M F A) (w : world F) (P Q : A -> world F -> Prop) :
  (forall a w', P a w' -> Q a w') -> returns m w P -> returns m w Q.
Proof. intros HPQ (a & w' & E & HP). exists a, w'. auto. Qed.

Lemma returns_emit (x : widget F) (w : world F) (P : unit -> world F -> Prop) :
  P tt (mkWorld (generation_cache w) (consumption_cache w)
                (generation_forecast_cache w) (consumption_forecast_cache w)
                (calls w) (ui w ++ [x])) ->
  returns (emit x) w P.
Proof. intros HP. eexists _, _. split; [reflexivity | exact HP]. Qed.

Lemma returns_lift {A} (r : result A) (a : A) (w : world F)
      (P : A -> world F -> Prop) :
  r = Return a -> P a w -> returns (lift r) w P.
Proof. intros -> HP. exists a, w. split; [reflexivity | exact HP]. Qed.

Lemma returns_st_progress (n : Z) (w : world F) (P : unit -> world F -> Prop) :
  0 <= n <= 100 ->
  P tt (mkWorld (generation_cache w) (consumption_cache w)
                (generation_forecast_cache w) (consumption_forecast_cache w)
                (calls w) (ui w ++ [Progress n])) ->
  returns (st_progress n) w P.
Proof.
  intros [H0 H100] HP. unfold st_progress.
  apply Z.leb_le in H0, H100. rewrite H0, H100. apply returns_emit, HP.
Qed.

Lemma returns_fst {A} (m : M F A) (w : world F) (P : A -> world F -> Prop) :
  returns m w P -> exists a, fst (m w) = Return a /\ P a (snd (m w)).
Proof. intros (a & w' & E & HP). exists a. rewrite E. split; [reflexivity | exact HP]. Qed.

Lemma same_caches_refl (w : world F) : same_caches w w.
Proof. repeat split. Qed.

Lemma same_caches_trans (w1 w2 w3 : world F) :
  same_caches w1 w2 -> same_caches w2 w3 -> same_caches w1 w3.
Proof.
  unfold same_caches. intros (A1 & A2 & A3 & A4) (B1 & B2 & B3 & B4).
  repeat split; congruence.
Qed.

End Outcomes.

Ltac tidy_world :=
  cbn [generation_cache consumption_cache generation_forecast_cache
       consumption_forecast_cache calls ui].

Ltac script_step :=
  lazymatch goal with
  | |- returns (mbind _ _) _ _ => apply returns_bind
  | |- returns (emit _) _ _ => apply returns_emit; tidy_world
  | |- returns (mret _) _ _ => apply returns_ret
  end.

(** ** The network analysis of the live tab (lines 290-300) *)

Section NetworkAnalysis.
Local Open Scope Q_scope.

Lemma tab_live_page (m : DerivedMetrics xq) (w : world xq) :
  tab_live m w
  = (Return tt,
     mkWorld (generation_cache w) (consumption_cache w)
             (generation_forecast_cache w) (consumption_forecast_cache w) (calls w)
             (ui w ++ [Chart "Live Generation Mix";
                       if fltb (of_int 50) (renewable_percentage m)
                       then StSuccess "The network is mostly green right now!"
                       else if fltb (of_int 20) (renewable_percentage m)
                       then StWarning "The network has a moderate share of renewables."
                       else StError "The network is heavily reliant on fossil fuels."]
                   ++ (if fltb (of_int 30) (lignite_percentage m)
                       then [Formatted "Lignite generation is very high! Consider reducing it."
                                       (lignite_percentage m)]
                       else [])
                   ++ [Chart "Green (Renewable) Energy Share (%)"])%list).
Proof.
  unfold tab_live, mbind, M_bind, emit, mret, M_ret.
  destruct (fltb (of_int 50) (renewable_percentage m)),
           (fltb (of_int 20) (renewable_percentage m)),
           (fltb (of_int 30) (lignite_percentage m));
    cbn; rewrite <- ?app_assoc; reflexivity.
Qed.

(** X3. The live tab always renders, as the generation chart, one banner,
    possibly a lignite alert, and the gauge.  The banner says "mostly
    green" for a renewable percentage above 50, "moderate share" above 20
    up to 50, and "heavily reliant on fossil fuels" at 20 or below and
    also when the percentage is not a number; the lignite alert appears
    exactly when the lignite percentage is a number above 30. *)
Theorem network_analysis_banner (m : DerivedMetrics xq) (w : world xq) :
  exists (banner : widget xq) (alert : list (widget xq)),
    fst (tab_live m w) = Return tt /\
    ui (snd (tab_live m w))
    = (ui w ++ [Chart "Live Generation Mix"; banner] ++ alert
         ++ [Chart "Green (Renewable) Energy Share (%)"])%list /\
    (forall r, renewable_percentage m = Fin r ->
       (50 < r -> banner = StSuccess "The network is mostly green right now!") /\
       (20 < r -> r <= 50 ->
          banner = StWarning "The network has a moderate share of renewables.") /\
       (r <= 20 -> banner = StError "The network is heavily reliant on fossil fuels.")) /\
    (renewable_percentage m = NaN ->
       banner = StError "The network is heavily reliant on fossil fuels.") /\
    (forall l, lignite_percentage m = Fin l ->
       (30 < l -> alert = [Formatted "Lignite generation is very high! Consider reducing it."
                                     (Fin l)]) /\
       (l <= 30 -> alert = [])) /\
    (lignite_percentage m = NaN -> alert = []).
Proof.
  eexists _, _. rewrite tab_live_page. cbn [fst snd ui].
  split; [reflexivity|]. split; [reflexivity|].
  split; [|split; [|split]].
  - intros r ->. change (fltb (of_int 50) (Fin r)) with (Qltb 50 r).
    change (fltb (of_int 20) (Fin r)) with (Qltb 20 r). repeat split.
    + intros H1. apply Qltb_true in H1. now rewrite H1.
    + intros H1 H2. apply Qltb_true in H1. apply Qltb_false in H2. now rewrite H2, H1.
    + intros H1. assert (H2 : r <= 50) by lra.
      apply Qltb_false in H1, H2. now rewrite H2, H1.
  - intros ->. reflexivity.
  - intros l ->. change (fltb (of_int 30) (Fin l)) with (Qltb 30 l). split.
    + intros H1. apply Qltb_true in H1. now rewrite H1.
    + intros H1. apply Qltb_false in H1. now rewrite H1.
  - intros ->. reflexivity.
Qed.

(** The banner of the spec's scenario (80% renewable, 10% lignite). *)
Lemma network_analysis_banner_witness :
  renewable_percentage (derive_metrics scenario) = Fin (800 / 1000 * 100) /\
  50 < 800 / 1000 * 100 /\
  lignite_percentage (derive_metrics scenario) = Fin (100 / 1000 * 100) /\
  100 / 1000 * 100 <= 30 /\
  exists (banner : widget xq) (alert : list (widget xq)),
    ui (snd (tab_live (derive_metrics scenario) no_cache))
    = ([Chart "Live Generation Mix"; banner] ++ alert
         ++ [Chart "Green (Renewable) Energy Share (%)"])%list /\
    banner = StSuccess "The network is mostly green right now!" /\ alert = [].
Proof.
  assert (Er : renewable_percentage (derive_metrics scenario) = Fin (800 / 1000 * 100))
    by reflexivity.
  assert (Hr : 50 < 800 / 1000 * 100) by (vm_compute; reflexivity).
  assert (El : lignite_percentage (derive_metrics scenario) = Fin (100 / 1000 * 100))
    by reflexivity.
  assert (Hl : 100 / 1000 * 100 <= 30) by (vm_compute; discriminate).
  destruct (network_analysis_banner (derive_metrics scenario) no_cache)
    as (banner & alert & _ & U & B & _ & A & _).
  refine (conj Er (conj Hr (conj El (conj Hl _)))).
  exists banner, alert. split; [exact U|]. split.
  - exact (proj1 (B _ Er) Hr).
  - exact (proj2 (A _ El) Hl).
Defined.

End NetworkAnalysis.

(** ** What a fetch does to the world *)

Section FetchEffects.
Context {F : Type} `{Float64 F}.

Lemma generation_body_run (client : EntsoeClient F) (start_date end_date : date)
      (w : world F) :
  get_generation_data_body client start_date end_date w
  = (match query_generation client EIC_GR (start_time_of start_date)
             (end_time_of end_date) with
     | Return df =>
         match iloc_last (dropna df) with
         | Return r => Return (df, source_mw (columns df) r, fst r)
         | Raise x => Raise x
         end
     | Raise x => Raise x
     end,
     mkWorld (generation_cache w) (consumption_cache w)
             (generation_forecast_cache w) (consumption_forecast_cache w)
             (calls w ++ [mkQuery OpGeneration EIC_GR (start_time_of start_date)
                                  (end_time_of end_date)])
             (ui w)).
Proof.
  unfold get_generation_data_body, call_client, lift, mbind, M_bind, mret, M_ret.
  destruct (query_generation _ _ _ _) as [df|x]; [|reflexivity].
  destruct (iloc_last (dropna df)); reflexivity.
Qed.

Lemma consumption_body_run (client : EntsoeClient F) (start_date end_date : date)
      (w : world F) :
  get_consumption_data_body client start_date end_date w
  = (query_load client EIC_GR (start_time_of start_date) (end_time_of end_date),
     mkWorld (generation_cache w) (consumption_cache w)
             (generation_forecast_cache w) (consumption_forecast_cache w)
             (calls w ++ [mkQuery OpLoad EIC_GR (start_time_of start_date)
                                  (end_time_of end_date)])
             (ui w)).
Proof. reflexivity. Qed.

Lemma price_run (client : EntsoeClient F) (start_date end_date : date) (w : world F) :
  get_price_data client start_date end_date w
  = contained OpDayAheadPrices "Error fetching price data: "
      (query_day_ahead_prices client EIC_GR (start_time_of start_date)
         (end_time_of end_date)) start_date end_date w.
Proof.
  unfold get_price_data, contained, try_except, call_client, emit,
    mbind, M_bind, mret, M_ret.
  destruct (query_day_ahead_prices _ _ _ _); reflexivity.
Qed.

Lemma generation_forecast_body_run (client : EntsoeClient F)
      (start_date end_date : date) (w : world F) :
  get_generation_forecast_body client start_date end_date w
  = contained OpGenerationForecast "Error fetching generation forecast data: "
      (query_generation_forecast client EIC_GR (start_time_of start_date)
         (end_time_of end_date)) start_date end_date w.
Proof.
  unfold get_generation_forecast_body, contained, try_except, call_client, emit,
    mbind, M_bind, mret, M_ret.
  destruct (query_generation_forecast _ _ _ _); reflexivity.
Qed.

Lemma consumption_forecast_body_run (client : EntsoeClient F)
      (start_date end_date : date) (w : world F) :
  get_consumption_forecast_body client start_date end_date w
  = contained OpLoadForecast "Error fetching consumption forecast data: "
      (query_load_forecast client EIC_GR (start_time_of start_date)
         (end_time_of end_date)) start_date end_date w.
Proof.
  unfold get_consumption_forecast_body, contained, try_except, call_client, emit,
    mbind, M_bind, mret, M_ret.
  destruct (query_load_forecast _ _ _ _); reflexivity.
Qed.

(** The decorator runs the body when it finds no entry or a stale one. *)
Lemma cache_data_runs_body {V : Type} (ttl : Z)
      (get : world F -> gmap (date * date) (entry V (widget F)))
      (set : gmap (date * date) (entry V (widget F)) -> world F -> world F)
      (now : Z) (key : date * date) (body : M F V) (w : world F) :
  (get w !! key = None \/
   exists e, get w !! key = Some e /\ ttl <= now - fetched_at e) ->
  cache_data ttl get set now key body w = run_and_store get set now key body w.
Proof.
  unfold cache_data, fresh. intros [-> | (e & -> & Hold)]; [reflexivity|].
  apply Z.ltb_ge in Hold. now rewrite Hold.
Qed.

End FetchEffects.

(** ** Edge behaviour of the fetches *)

Section FetchEdges.
Context {F : Type} `{Float64 F}.

(** X4. When the provider answers the generation query with a frame in
    which no row is complete (an empty frame included), the generation
    fetch raises [IndexError] at [iloc[-1]], after one query to the
    provider; nothing is stored in any cache and nothing is shown. *)
Theorem generation_without_complete_row
        (client : EntsoeClient F) (now : Z) (start_date end_date : date)
        (w : world F) (df : DataFrame F) :
  query_generation client EIC_GR (start_time_of start_date) (end_time_of end_date)
    = Return df ->
  Forall (fun r => row_complete r = false) (rows df) ->
  generation_cache w !! (start_date, end_date) = None ->
  get_generation_data client now start_date end_date w
  = (Raise (IndexError "single positional indexer is out-of-bounds"),
     mkWorld (generation_cache w) (consumption_cache w)
             (generation_forecast_cache w) (consumption_forecast_cache w)
             (calls w ++ [mkQuery OpGeneration EIC_GR (start_time_of start_date)
                                  (end_time_of end_date)])
             (ui w)).
Proof.
  intros Hq Hrows Hc. unfold get_generation_data.
  rewrite cache_data_runs_body by (left; exact Hc).
  unfold run_and_store. rewrite generation_body_run, Hq.
  unfold iloc_last, dropna. cbn [rows]. rewrite (filter_none _ _ Hrows). reflexivity.
Qed.

Lemma generation_raise_run (client : EntsoeClient F) (now : Z)
      (start_date end_date : date) (w : world F) (e : exn) :
  query_generation client EIC_GR (start_time_of start_date) (end_time_of end_date)
    = Raise e ->
  generation_cache w !! (start_date, end_date) = None ->
  get_generation_data client now start_date end_date w
  = (Raise e,
     mkWorld (generation_cache w) (consumption_cache w)
             (generation_forecast_cache w) (consumption_forecast_cache w)
             (calls w ++ [mkQuery OpGeneration EIC_GR (start_time_of start_date)
                                  (end_time_of end_date)])
             (ui w)).
Proof.
  intros Hq Hc. unfold get_generation_data.
  rewrite cache_data_runs_body by (left; exact Hc).
  unfold run_and_store. now rewrite generation_body_run, Hq.
Qed.

Lemma consumption_raise_run (client : EntsoeClient F) (now : Z)
      (start_date end_date : date) (w : world F) (e : exn) :
  query_load client EIC_GR (start_time_of start_date) (end_time_of end_date)
    = Raise e ->
  consumption_cache w !! (start_date, end_date) = None ->
  get_consumption_data client now start_date end_date w
  = (Raise e,
     mkWorld (generation_cache w) (consumption_cache w)
             (generation_forecast_cache w) (consumption_forecast_cache w)
             (calls w ++ [mkQuery OpLoad EIC_GR (start_time_of start_date)
                                  (end_time_of end_date)])
             (ui w)).
Proof.
  intros Hq Hc. unfold get_consumption_data.
  rewrite cache_data_runs_body by (left; exact Hc).
  unfold run_and_store. now rewrite consumption_body_run, Hq.
Qed.

(** X5. A generation or load fetch whose query raises stores nothing:
    the caches are as before, and a second call, at any time, queries the
    provider again and raises again. *)
Theorem raised_fetch_is_not_cached
        (client : EntsoeClient F) (now now' : Z) (start_date end_date : date)
        (w : world F) (e : exn) :
  (query_generation client EIC_GR (start_time_of start_date) (end_time_of end_date)
     = Raise e ->
   generation_cache w !! (start_date, end_date) = None ->
   same_caches w (snd (get_generation_data client now start_date end_date w)) /\
   fst (get_generation_data client now' start_date end_date
          (snd (get_generation_data client now start_date end_date w))) = Raise e /\
   calls (snd (get_generation_data client now' start_date end_date
                 (snd (get_generation_data client now start_date end_date w))))
   = (calls w ++ [mkQuery OpGeneration EIC_GR (start_time_of start_date)
                           (end_time_of end_date);
                  mkQuery OpGeneration EIC_GR (start_time_of start_date)
                           (end_time_of end_date)])%list) /\
  (query_load client EIC_GR (start_time_of start_date) (end_time_of end_date)
     = Raise e ->
   consumption_cache w !! (start_date, end_date) = None ->
   same_caches w (snd (get_consumption_data client now start_date end_date w)) /\
   fst (get_consumption_data client now' start_date end_date
          (snd (get_consumption_data client now start_date end_date w))) = Raise e /\
   calls (snd (get_consumption_data client now' start_date end_date
                 (snd (get_consumption_data client now start_date end_date w))))
   = (calls w ++ [mkQuery OpLoad EIC_GR (start_time_of start_date)
                           (end_time_of end_date);
                  mkQuery OpLoad EIC_GR (start_time_of start_date)
                           (end_time_of end_date)])%list).
Proof.
  split; intros Hq Hc.
  - rewrite (generation_raise_run client now _ _ w e Hq Hc). cbn [snd].
    match goal with
    | |- context [get_generation_data client now' _ _ ?W] =>
        rewrite (generation_raise_run client now' start_date end_date W e Hq Hc)
    end. cbn [fst snd calls].
    rewrite <- app_assoc. repeat split.
  - rewrite (consumption_raise_run client now _ _ w e Hq Hc). cbn [snd].
    match goal with
    | |- context [get_consumption_data client now' _ _ ?W] =>
        rewrite (consumption_raise_run client now' start_date end_date W e Hq Hc)
    end. cbn [fst snd calls].
    rewrite <- app_assoc. repeat split.
Qed.

End FetchEdges.

(** X4 on a frame whose two rows each miss a value. *)
Lemma generation_without_complete_row_witness :
  query_generation (client_answering (fun _ => Return patchy_frame)) EIC_GR
    (start_time_of (mkDate 2025 6 1)) (end_time_of (mkDate 2025 6 1))
    = Return patchy_frame /\
  Forall (fun r => row_complete r = false) (rows patchy_frame) /\
  generation_cache (no_cache (F := xq)) !! (mkDate 2025 6 1, mkDate 2025 6 1) = None /\
  fst (get_generation_data (client_answering (fun _ => Return patchy_frame)) 0
         (mkDate 2025 6 1) (mkDate 2025 6 1) no_cache)
  = Raise (IndexError "single positional indexer is out-of-bounds").
Proof.
  assert (Hq : query_generation (client_answering (fun _ => Return patchy_frame)) EIC_GR
                 (start_time_of (mkDate 2025 6 1)) (end_time_of (mkDate 2025 6 1))
               = Return patchy_frame) by reflexivity.
  assert (Hr : Forall (fun r => row_complete r = false) (rows patchy_frame))
    by (repeat constructor).
  assert (Hc : generation_cache (no_cache (F := xq))
               !! (mkDate 2025 6 1, mkDate 2025 6 1) = None) by reflexivity.
  refine (conj Hq (conj Hr (conj Hc _))).
  rewrite (generation_without_complete_row _ 0 _ _ no_cache patchy_frame Hq Hr Hc).
  reflexivity.
Defined.

(** X5 on a generation query that times out. *)
Lemma raised_fetch_is_not_cached_witness :
  query_generation (client_failing OpGeneration) EIC_GR
    (start_time_of (mkDate 2025 6 1)) (end_time_of (mkDate 2025 6 1)) = Raise timeout /\
  generation_cache (no_cache (F := xq)) !! (mkDate 2025 6 1, mkDate 2025 6 1) = None /\
  fst (get_generation_data (client_failing OpGeneration) 5
         (mkDate 2025 6 1) (mkDate 2025 6 1)
         (snd (get_generation_data (client_failing OpGeneration) 0
                 (mkDate 2025 6 1) (mkDate 2025 6 1) no_cache))) = Raise timeout.
Proof.
  assert (Hq : query_generation (client_failing OpGeneration) EIC_GR
                 (start_time_of (mkDate 2025 6 1)) (end_time_of (mkDate 2025 6 1))
               = Raise timeout) by reflexivity.
  assert (Hc : generation_cache (no_cache (F := xq))
               !! (mkDate 2025 6 1, mkDate 2025 6 1) = None) by reflexivity.
  exact (conj Hq (conj Hc
           (proj1 (proj2 (proj1 (raised_fetch_is_not_cached (client_failing OpGeneration)
                                   0 5 (mkDate 2025 6 1) (mkDate 2025 6 1) no_cache timeout)
                                Hq Hc))))).
Defined.

(** ** Expiry and independence of cache entries *)

Section CacheEdges.
Context {F : Type} `{Float64 F}.

(** X6. An entry that is 900 seconds old, or older, is not served: the
    fetch queries the provider again.  For the load fetch, the provider's new frame is
    returned and replaces the entry, stamped with the time of the call. *)
Theorem expired_entry_is_refetched
        (client : EntsoeClient F) (now : Z) (start_date end_date : date) (w : world F) :
  (forall e0,
      generation_cache w !! (start_date, end_date) = Some e0 ->
      900 <= now - fetched_at e0 ->
      calls (snd (get_generation_data client now start_date end_date w))
      = (calls w ++ [mkQuery OpGeneration EIC_GR (start_time_of start_date)
                              (end_time_of end_date)])%list) /\
  (forall e0,
      consumption_cache w !! (start_date, end_date) = Some e0 ->
      900 <= now - fetched_at e0 ->
      calls (snd (get_consumption_data client now start_date end_date w))
      = (calls w ++ [mkQuery OpLoad EIC_GR (start_time_of start_date)
                              (end_time_of end_date)])%list /\
      forall df,
        query_load client EIC_GR (start_time_of start_date) (end_time_of end_date)
          = Return df ->
        fst (get_consumption_data client now start_date end_date w) = Return df /\
        consumption_cache (snd (get_consumption_data client now start_date end_date w))
          !! (start_date, end_date) = Some (mkEntry df now [])) /\
  (forall e0,
      generation_forecast_cache w !! (start_date, end_date) = Some e0 ->
      900 <= now - fetched_at e0 ->
      calls (snd (get_generation_forecast client now start_date end_date w))
      = (calls w ++ [mkQuery OpGenerationForecast EIC_GR (start_time_of start_date)
                              (end_time_of end_date)])%list) /\
  (forall e0,
      consumption_forecast_cache w !! (start_date, end_date) = Some e0 ->
      900 <= now - fetched_at e0 ->
      calls (snd (get_consumption_forecast client now start_date end_date w))
      = (calls w ++ [mkQuery OpLoadForecast EIC_GR (start_time_of start_date)
                              (end_time_of end_date)])%list).
Proof.
  split; [|split; [|split]]; intros e0 Hc Hold.
  - unfold get_generation_data. rewrite cache_data_runs_body by (right; eauto).
    unfold run_and_store. rewrite generation_body_run.
    destruct (query_generation _ _ _ _) as [df|x]; [|reflexivity].
    destruct (iloc_last (dropna df)); reflexivity.
  - unfold get_consumption_data. rewrite cache_data_runs_body by (right; eauto).
    unfold run_and_store. rewrite consumption_body_run. split.
    + destruct (query_load _ _ _ _); reflexivity.
    + intros df ->. cbn [fst snd consumption_cache set_consumption_cache ui].
      split; [reflexivity|]. rewrite drop_all. apply lookup_insert_eq.
  - unfold get_generation_forecast. rewrite cache_data_runs_body by (right; eauto).
    unfold run_and_store. rewrite generation_forecast_body_run. reflexivity.
  - unfold get_consumption_forecast. rewrite cache_data_runs_body by (right; eauto).
    unfold run_and_store. rewrite consumption_forecast_body_run. reflexivity.
Qed.

End CacheEdges.

(** X6 on a load entry stored at time 0 and read at time 900. *)
Lemma expired_entry_is_refetched_witness :
  consumption_cache (snd (get_consumption_data healthy_client 0
                            (mkDate 2025 6 1) (mkDate 2025 6 1) no_cache))
    !! (mkDate 2025 6 1, mkDate 2025 6 1) = Some (mkEntry gappy_frame 0 []) /\
  900 <= 900 - fetched_at (mkEntry (W := widget xq) gappy_frame 0 []) /\
  calls (snd (get_consumption_data healthy_client 900 (mkDate 2025 6 1) (mkDate 2025 6 1)
                (snd (get_consumption_data healthy_client 0
                        (mkDate 2025 6 1) (mkDate 2025 6 1) no_cache))))
  = [ mkQuery OpLoad EIC_GR 1748725200 1748811599;
      mkQuery OpLoad EIC_GR 1748725200 1748811599 ].
Proof.
  assert (Hc : consumption_cache (snd (get_consumption_data healthy_client 0
                                         (mkDate 2025 6 1) (mkDate 2025 6 1) no_cache))
               !! (mkDate 2025 6 1, mkDate 2025 6 1) = Some (mkEntry gappy_frame 0 []))
    by (vm_compute; reflexivity).
  assert (Hold : 900 <= 900 - fetched_at (mkEntry (W := widget xq) gappy_frame 0 []))
    by (simpl; lia).
  refine (conj Hc (conj Hold _)).
  rewrite (proj1 (proj1 (proj2 (expired_entry_is_refetched healthy_client 900
                                  (mkDate 2025 6 1) (mkDate 2025 6 1) _)) _ Hc Hold)).
  reflexivity.
Defined.

Section CacheKeys.
Context {F : Type} `{Float64 F}.

(** X7. A memoized fetch touches at most the entry of its own cache for
    its own pair of dates: the entries of every other pair of dates and
    the three other caches are as before. *)
Theorem fetch_leaves_other_entries
        (client : EntsoeClient F) (now : Z) (start_date end_date : date)
        (w : world F) (other : date * date) :
  other <> (start_date, end_date) ->
  (generation_cache (snd (get_generation_data client now start_date end_date w))
     !! other = generation_cache w !! other /\
   consumption_cache (snd (get_generation_data client now start_date end_date w))
     = consumption_cache w /\
   generation_forecast_cache (snd (get_generation_data client now start_date end_date w))
     = generation_forecast_cache w /\
   consumption_forecast_cache (snd (get_generation_data client now start_date end_date w))
     = consumption_forecast_cache w) /\
  (consumption_cache (snd (get_consumption_data client now start_date end_date w))
     !! other = consumption_cache w !! other /\
   generation_cache (snd (get_consumption_data client now start_date end_date w))
     = generation_cache w /\
   generation_forecast_cache (snd (get_consumption_data client now start_date end_date w))
     = generation_forecast_cache w /\
   consumption_forecast_cache (snd (get_consumption_data client now start_date end_date w))
     = consumption_forecast_cache w) /\
  (generation_forecast_cache (snd (get_generation_forecast client now start_date end_date w))
     !! other = generation_forecast_cache w !! other /\
   generation_cache (snd (get_generation_forecast client now start_date end_date w))
     = generation_cache w /\
   consumption_cache (snd (get_generation_forecast client now start_date end_date w))
     = consumption_cache w /\
   consumption_forecast_cache (snd (get_generation_forecast client now start_date end_date w))
     = consumption_forecast_cache w) /\
  (consumption_forecast_cache (snd (get_consumption_forecast client now start_date end_date w))
     !! other = consumption_forecast_cache w !! other /\
   generation_cache (snd (get_consumption_forecast client now start_date end_date w))
     = generation_cache w /\
   consumption_cache (snd (get_consumption_forecast client now start_date end_date w))
     = consumption_cache w /\
   generation_forecast_cache (snd (get_consumption_forecast client now start_date end_date w))
     = generation_forecast_cache w).
Proof.
  intros Hne. assert (Hne' : (start_date, end_date) <> other) by congruence.
  split; [|split; [|split]].
  - unfold get_generation_data, cache_data.
    destruct (generation_cache w !! (start_date, end_date)) as [e0|];
      [destruct (fresh 900 now e0); [repeat split|]|];
      unfold run_and_store; rewrite generation_body_run;
      (destruct (query_generation _ _ _ _) as [df|x]; [|repeat split]);
      (destruct (iloc_last (dropna df)); [|repeat split]);
      cbn; rewrite lookup_insert_ne by exact Hne'; repeat split.
  - unfold get_consumption_data, cache_data.
    destruct (consumption_cache w !! (start_date, end_date)) as [e0|];
      [destruct (fresh 900 now e0); [repeat split|]|];
      unfold run_and_store; rewrite consumption_body_run;
      (destruct (query_load _ _ _ _) as [df|x]; [|repeat split]);
      cbn; rewrite lookup_insert_ne by exact Hne'; repeat split.
  - unfold get_generation_forecast, cache_data.
    destruct (generation_forecast_cache w !! (start_date, end_date)) as [e0|];
      [destruct (fresh 900 now e0); [repeat split|]|];
      unfold run_and_store; rewrite generation_forecast_body_run;
      cbn; rewrite lookup_insert_ne by exact Hne'; repeat split.
  - unfold get_consumption_forecast, cache_data.
    destruct (consumption_forecast_cache w !! (start_date, end_date)) as [e0|];
      [destruct (fresh 900 now e0); [repeat split|]|];
      unfold run_and_store; rewrite consumption_forecast_body_run;
      cbn; rewrite lookup_insert_ne by exact Hne'; repeat split.
Qed.

End CacheKeys.

(** X7 after two fetches for different days: the entry of the first day is
    still there after the fetch for the second. *)
Lemma fetch_leaves_other_entries_witness :
  (mkDate 2025 5 31, mkDate 2025 5 31) <> (mkDate 2025 6 1, mkDate 2025 6 1) /\
  generation_cache
    (snd (get_generation_data healthy_client 60 (mkDate 2025 6 1) (mkDate 2025 6 1)
            (snd (get_generation_data healthy_client 0 (mkDate 2025 5 31)
                    (mkDate 2025 5 31) no_cache))))
    !! (mkDate 2025 5 31, mkDate 2025 5 31)
  = generation_cache
      (snd (get_generation_data healthy_client 0 (mkDate 2025 5 31)
              (mkDate 2025 5 31) no_cache))
      !! (mkDate 2025 5 31, mkDate 2025 5 31).
Proof.
  assert (Hne : (mkDate 2025 5 31, mkDate 2025 5 31) <> (mkDate 2025 6 1, mkDate 2025 6 1))
    by discriminate.
  exact (conj Hne
           (proj1 (proj1 (fetch_leaves_other_entries healthy_client 60
                            (mkDate 2025 6 1) (mkDate 2025 6 1) _ _ Hne)))).
Defined.

(** ** The range of a fetch, again *)

Section RangeOrder.

Lemma localize_midnight_cases (d : date) :
  Calendar.localize d 0 = Calendar.days_from_civil d * 86400 - 7200 \/
  Calendar.localize d 0 = Calendar.days_from_civil d * 86400 - 10800.
Proof.
  unfold Calendar.localize. rewrite Z.add_0_r.
  destruct (Calendar.is_dst _ _); [right | left]; reflexivity.
Qed.


(** X8. When the start date is not after the end date, the range passed
    to the provider is in order and never shorter than a day minus an
    hour and a second: with [n] days from the start date to the end date
    its length is [(n+1)] days minus one second, give or take the hour of
    a clock change; for one and the same date it is exactly 86399
    seconds. *)
Theorem range_is_ordered (start_date end_date : date) :
  Calendar.days_from_civil start_date <= Calendar.days_from_civil end_date ->
  start_time_of start_date < end_time_of end_date /\
  (Calendar.days_from_civil end_date - Calendar.days_from_civil start_date + 1) * 86400
    - 1 - 3600
  <= end_time_of end_date - start_time_of start_date
  <= (Calendar.days_from_civil end_date - Calendar.days_from_civil start_date + 1) * 86400
     - 1 + 3600 /\
  (start_date = end_date -> end_time_of end_date - start_time_of start_date = 86399).
Proof.
  intros Hle. unfold start_time_of, end_time_of.
  split; [|split].
  - destruct (localize_midnight_cases start_date) as [-> | ->],
             (localize_midnight_cases end_date) as [-> | ->]; lia.
  - destruct (localize_midnight_cases start_date) as [-> | ->],
             (localize_midnight_cases end_date) as [-> | ->]; lia.
  - intros ->. lia.
Qed.

Lemma range_is_ordered_witness :
  Calendar.days_from_civil (mkDate 2025 3 29) <= Calendar.days_from_civil (mkDate 2025 3 30) /\
  start_time_of (mkDate 2025 3 29) < end_time_of (mkDate 2025 3 30).
Proof.
  assert (Hle : Calendar.days_from_civil (mkDate 2025 3 29)
                <= Calendar.days_from_civil (mkDate 2025 3 30))
    by (vm_compute; discriminate).
  exact (conj Hle (proj1 (range_is_ordered (mkDate 2025 3 29) (mkDate 2025 3 30) Hle))).
Defined.

End RangeOrder.

(** ** The map tab and the price metric *)

Section MapAndPrice.
Context {F : Type} `{Float64 F}.

(** Whatever the lookup gives, the status is one of the seven texts of the
    script. *)
Lemma status_always_known (response : result weather_data) (plant_type : string) :
  status_of_text (snd (get_weather_data response plant_type)) <> None.
Proof.
  destruct response as [[t ws cc]|e]; cbn [get_weather_data snd]; [|discriminate].
  unfold output_status. cbn [temp wind_speed clouds_all].
  destruct (String.eqb plant_type "Solar").
  - destruct (Qgtb cc 80); [discriminate|]. destruct (Qgtb cc 50); discriminate.
  - destruct (String.eqb plant_type "Wind"); [|discriminate].
    destruct (Qltb ws 3); [discriminate|]. destruct (Qltb ws 8); discriminate.
Qed.

Lemma mapM_emit {A : Type} (f : A -> M F unit) (g : A -> widget F) (l : list A) :
  (forall a w, f a w = emit (g a) w) ->
  forall w : world F,
    mapM f l w
    = (Return (map (fun _ => tt) l),
       mkWorld (generation_cache w) (consumption_cache w)
               (generation_forecast_cache w) (consumption_forecast_cache w)
               (calls w) (ui w ++ map g l)).
Proof.
  intros Hf. induction l as [|a l IH]; intros w.
  - destruct w. cbn. now rewrite app_nil_r.
  - cbn [mapM map]. unfold mbind at 1. unfold M_bind at 1. rewrite Hf.
    unfold emit. unfold mbind at 1. unfold M_bind at 1. rewrite IH.
    cbn. now rewrite <- app_assoc.
Qed.

Lemma tab_map_page (OWM : Q -> Q -> result weather_data) (w : world F) :
  tab_map OWM w
  = (Return tt,
     mkWorld (generation_cache w) (consumption_cache w)
             (generation_forecast_cache w) (consumption_forecast_cache w) (calls w)
             (ui w ++ map (fun '(name, type, lat, lon) =>
                             MapRow name (snd (get_weather_data (OWM lat lon) type)))
                          map_locations
                   ++ [Chart "Greece Energy Map"])).
Proof.
  unfold tab_map. unfold mbind at 1. unfold M_bind at 1.
  rewrite (mapM_emit _ (fun '(name, type, lat, lon) =>
                          MapRow name (snd (get_weather_data (OWM lat lon) type)))).
  - unfold emit. cbn. now rewrite <- app_assoc.
  - intros [[[name type] lat] lon] w'. reflexivity.
Qed.

(** X10. The map tab never raises, whatever the weather service does: it
    shows one row per plant of the table, in the order of the table, and
    then the map.  The status of a row is always one of the seven texts
    of the script; it is ["-"] for every plant that is neither Solar nor
    Wind, and for every plant whose lookup failed, and a failed lookup
    does not change the row of any other plant. *)
Theorem map_tab_always_renders (OWM : Q -> Q -> result weather_data) (w : world F) :
  exists shown : list (widget F),
    fst (tab_map OWM w) = Return tt /\
    ui (snd (tab_map OWM w)) = (ui w ++ shown ++ [Chart "Greece Energy Map"])%list /\
    calls (snd (tab_map OWM w)) = calls w /\
    Forall2 (fun (plant : string * string * Q * Q) (row : widget F) =>
               let '(name, type, lat, lon) := plant in
               exists status,
                 row = MapRow name status /\
                 status = snd (get_weather_data (OWM lat lon) type) /\
                 status_of_text status <> None /\
                 (type <> "Solar" -> type <> "Wind" -> status = "-") /\
                 (forall e, OWM lat lon = Raise e -> status = "-"))
            map_locations shown.
Proof.
  eexists. rewrite tab_map_page. cbn [fst snd ui calls].
  split; [reflexivity|]. split; [reflexivity|]. split; [reflexivity|].
  apply Forall2_fmap_r, Forall_Forall2_diag, Forall_forall.
  intros [[[name type] lat] lon] _. eexists. split; [reflexivity|].
  split; [reflexivity|]. split; [apply status_always_known|]. split.
  - intros Hs Hw. destruct (OWM lat lon); cbn [get_weather_data snd]; [|reflexivity].
    now apply status_other.
  - intros e ->. reflexivity.
Qed.

(** X11. The price fetch never raises.  When its query raises, it shows
    one error box with the message of the exception and returns the empty
    frame, for which the price metric has no value; when the query
    returns a frame, nothing is shown, and the price metric is the first
    cell of the last row (no value for a frame without rows). *)
Theorem price_metric_value
        (client : EntsoeClient F) (start_date end_date : date) (w : world F) :
  (forall e,
      query_day_ahead_prices client EIC_GR (start_time_of start_date)
        (end_time_of end_date) = Raise e ->
      fst (get_price_data client start_date end_date w) = Return empty_frame /\
      ui (snd (get_price_data client start_date end_date w))
      = (ui w ++ [StError ("Error fetching price data: " ++ exn_msg e)])%list /\
      latest_price_of (F := F) empty_frame = None) /\
  (forall df,
      query_day_ahead_prices client EIC_GR (start_time_of start_date)
        (end_time_of end_date) = Return df ->
      fst (get_price_data client start_date end_date w) = Return df /\
      ui (snd (get_price_data client start_date end_date w)) = ui w /\
      (rows df = [] -> latest_price_of df = None) /\
      (forall before t x cells,
          columns df <> [] -> rows df = (before ++ [(t, x :: cells)])%list ->
          latest_price_of df = Some x)).
Proof.
  split.
  - intros e Hq. rewrite price_run, Hq. repeat split.
  - intros df Hq. rewrite price_run, Hq. cbn [contained fst snd ui].
    split; [reflexivity|]. split; [reflexivity|]. split.
    + intros Hr. unfold latest_price_of, empty. rewrite Hr.
      destruct (columns df); reflexivity.
    + intros before t x cells Hcols Hr. unfold latest_price_of, empty. rewrite Hr.
      destruct (columns df) as [|c cols]; [contradiction|].
      rewrite last_snoc. destruct before; reflexivity.
Qed.

End MapAndPrice.

(** X10 with a weather service that answers: the first plant of the table
    is a lignite plant and its status is ["-"]. *)
Lemma map_tab_always_renders_witness :
  "Lignite" <> "Solar" /\ "Lignite" <> "Wind" /\
  exists shown rest : list (widget xq),
    ui (snd (tab_map (fun _ _ => Return overcast_breeze) (no_cache (F := xq))))
    = (shown ++ [Chart "Greece Energy Map"])%list /\
    shown = MapRow "Agios Dimitrios Power Station" "-" :: rest.
Proof.
  assert (H1 : "Lignite" <> "Solar") by discriminate.
  assert (H2 : "Lignite" <> "Wind") by discriminate.
  refine (conj H1 (conj H2 _)).
  destruct (map_tab_always_renders (F := xq) (fun _ _ => Return overcast_breeze) no_cache)
    as (shown & _ & U & _ & FA).
  unfold map_locations in FA.
  inversion FA as [|plant row plants rest Hrow _ E1 E2]. subst.
  destruct Hrow as (status & -> & _ & _ & Hother & _).
  exists (MapRow "Agios Dimitrios Power Station" status :: rest), rest.
  split; [exact U|]. now rewrite (Hother H1 H2).
Defined.

(** X11 with a price query that times out. *)
Lemma price_metric_value_witness :
  query_day_ahead_prices (client_failing OpDayAheadPrices) EIC_GR
    (start_time_of (mkDate 2025 6 1)) (end_time_of (mkDate 2025 6 1)) = Raise timeout /\
  fst (get_price_data (client_failing OpDayAheadPrices) (mkDate 2025 6 1) (mkDate 2025 6 1)
         no_cache) = Return empty_frame /\
  query_day_ahead_prices healthy_client EIC_GR
    (start_time_of (mkDate 2025 6 1)) (end_time_of (mkDate 2025 6 1)) = Return price_frame /\
  columns price_frame <> [] /\
  rows price_frame = ([(1748725200, [Fin 95])] ++ [(1748728800, [Fin 101])])%list /\
  latest_price_of price_frame = Some (Fin 101).
Proof.
  assert (Hq : query_day_ahead_prices (client_failing OpDayAheadPrices) EIC_GR
                 (start_time_of (mkDate 2025 6 1)) (end_time_of (mkDate 2025 6 1))
               = Raise timeout) by reflexivity.
  assert (Hq' : query_day_ahead_prices healthy_client EIC_GR
                  (start_time_of (mkDate 2025 6 1)) (end_time_of (mkDate 2025 6 1))
                = Return price_frame) by reflexivity.
  assert (Hc : columns price_frame <> []) by discriminate.
  assert (Hr : rows price_frame
               = ([(1748725200, [Fin 95])] ++ [(1748728800, [Fin 101])])%list)
    by reflexivity.
  pose proof (price_metric_value (client_failing OpDayAheadPrices)
                (mkDate 2025 6 1) (mkDate 2025 6 1) no_cache) as (A & _).
  pose proof (price_metric_value healthy_client
                (mkDate 2025 6 1) (mkDate 2025 6 1) no_cache) as (_ & B).
  exact (conj Hq (conj (proj1 (A timeout Hq)) (conj Hq' (conj Hc (conj Hr
           (proj2 (proj2 (proj2 (B price_frame Hq'))) _ _ _ _ Hc Hr)))))).
Defined.

(** ** Runs of the whole script *)

Section ScriptRuns.
Context {F : Type} `{Float64 F}.

Lemma bind_ends {A B} (m : M F A) (k : A -> M F B) (w : world F)
      (Q : result B * world F -> Prop) :
  returns m w (fun a w' => Q (k a w')) -> Q (mbind k m w).
Proof.
  intros (a & w' & Em & HQ). unfold mbind, M_bind. now rewrite Em.
Qed.

Lemma returns_generation (client : EntsoeClient F) (now : Z)
      (start_date end_date : date) (w : world F)
      (df : DataFrame F) (r : Timestamp * list F) :
  query_generation client EIC_GR (start_time_of start_date) (end_time_of end_date)
    = Return df ->
  iloc_last (dropna df) = Return r ->
  returns (get_generation_data client now start_date end_date) w
    (fun v w' =>
       consumption_cache w' = consumption_cache w /\
       generation_forecast_cache w' = generation_forecast_cache w /\
       consumption_forecast_cache w' = consumption_forecast_cache w /\
       (generation_cache w !! (start_date, end_date) = None ->
        v = (df, source_mw (columns df) r, fst r))).
Proof.
  intros Hq Hr. unfold returns, get_generation_data, cache_data.
  destruct (generation_cache w !! (start_date, end_date)) as [e0|] eqn:Hc.
  - destruct (fresh 900 now e0).
    + eexists _, _. split; [reflexivity|]. repeat split; discriminate.
    + unfold run_and_store. rewrite generation_body_run, Hq, Hr.
      eexists _, _. split; [reflexivity|]. repeat split; discriminate.
  - unfold run_and_store. rewrite generation_body_run, Hq, Hr.
    eexists _, _. split; [reflexivity|]. repeat split.
Qed.

Lemma returns_consumption (client : EntsoeClient F) (now : Z)
      (start_date end_date : date) (w : world F) (df : DataFrame F) :
  query_load client EIC_GR (start_time_of start_date) (end_time_of end_date)
    = Return df ->
  returns (get_consumption_data client now start_date end_date) w
    (fun v w' =>
       generation_forecast_cache w' = generation_forecast_cache w /\
       consumption_forecast_cache w' = consumption_forecast_cache w /\
       (consumption_cache w !! (start_date, end_date) = None -> v = df)).
Proof.
  intros Hq. unfold returns, get_consumption_data, cache_data.
  destruct (consumption_cache w !! (start_date, end_date)) as [e0|] eqn:Hc.
  - destruct (fresh 900 now e0).
    + eexists _, _. split; [reflexivity|]. repeat split; discriminate.
    + unfold run_and_store. rewrite consumption_body_run, Hq.
      eexists _, _. split; [reflexivity|]. repeat split; discriminate.
  - unfold run_and_store. rewrite consumption_body_run, Hq.
    eexists _, _. split; [reflexivity|]. repeat split.
Qed.

Lemma returns_price (client : EntsoeClient F) (start_date end_date : date) (w : world F) :
  returns (get_price_data client start_date end_date) w
    (fun v w' =>
       generation_forecast_cache w' = generation_forecast_cache w /\
       consumption_forecast_cache w' = consumption_forecast_cache w /\
       v = match query_day_ahead_prices client EIC_GR (start_time_of start_date)
                   (end_time_of end_date) with
           | Return df => df
           | Raise _ => mkFrame [] []
           end).
Proof.
  unfold returns. rewrite price_run. eexists _, _. split; [reflexivity|].
  repeat split.
Qed.

Lemma returns_generation_forecast (client : EntsoeClient F) (now : Z)
      (start_date end_date : date) (w : world F) :
  returns (get_generation_forecast client now start_date end_date) w (fun _ _ => True).
Proof.
  unfold returns, get_generation_forecast, cache_data.
  destruct (generation_forecast_cache w !! (start_date, end_date)) as [e0|];
    [destruct (fresh 900 now e0); [eexists _, _; split; [reflexivity | exact I]|]|];
    unfold run_and_store; rewrite generation_forecast_body_run;
    eexists _, _; (split; [reflexivity | exact I]).
Qed.

Lemma returns_consumption_forecast (client : EntsoeClient F) (now : Z)
      (start_date end_date : date) (w : world F) :
  returns (get_consumption_forecast client now start_date end_date) w (fun _ _ => True).
Proof.
  unfold returns, get_consumption_forecast, cache_data.
  destruct (consumption_forecast_cache w !! (start_date, end_date)) as [e0|];
    [destruct (fresh 900 now e0); [eexists _, _; split; [reflexivity | exact I]|]|];
    unfold run_and_store; rewrite consumption_forecast_body_run;
    eexists _, _; (split; [reflexivity | exact I]).
Qed.



End ScriptRuns.

Section RefreshRun.
Context {F : Type} `{Float64 F}.

(** X12. A run with the refresh button pressed, in which the generation
    and load fetches return, ends at the button with Streamlit's rerun
    signal after emptying all four caches, whatever they held; the next
    generation fetch therefore queries the provider. *)
Theorem refresh_clears_every_cache
        (client : EntsoeClient F) (OWM : Q -> Q -> result weather_data) (now : Z)
        (start_date end_date today : date) (w : world F)
        (df dl : DataFrame F) (r : Timestamp * list F) :
  query_generation client EIC_GR (start_time_of start_date) (end_time_of end_date)
    = Return df ->
  iloc_last (dropna df) = Return r ->
  query_load client EIC_GR (start_time_of start_date) (end_time_of end_date)
    = Return dl ->
  fst (script client OWM now start_date end_date today true w)
    = Raise (PyExn "RerunException" "") /\
  generation_cache (snd (script client OWM now start_date end_date today true w)) = ∅ /\
  consumption_cache (snd (script client OWM now start_date end_date today true w)) = ∅ /\
  generation_forecast_cache (snd (script client OWM now start_date end_date today true w))
    = ∅ /\
  consumption_forecast_cache (snd (script client OWM now start_date end_date today true w))
    = ∅ /\
  forall now',
    calls (snd (get_generation_data client now' start_date end_date
                  (snd (script client OWM now start_date end_date today true w))))
    = (calls (snd (script client OWM now start_date end_date today true w))
         ++ [mkQuery OpGeneration EIC_GR (start_time_of start_date)
                     (end_time_of end_date)])%list.
Proof.
  intros Hq Hr Hl.
  assert (E : (fun x : result unit * world F =>
                 fst x = Raise (PyExn "RerunException" "") /\
                 generation_cache (snd x) = ∅ /\ consumption_cache (snd x) = ∅ /\
                 generation_forecast_cache (snd x) = ∅ /\
                 consumption_forecast_cache (snd x) = ∅)
                (script client OWM now start_date end_date today true w)).
  { unfold script.
    apply bind_ends, returns_emit. apply bind_ends, returns_emit.
    apply bind_ends.
    eapply returns_weaken; [|exact (returns_generation client now _ _ _ df r Hq Hr)].
    intros [[dfg lv] dt] w1 _. cbv beta iota.
    apply bind_ends.
    eapply returns_weaken; [|exact (returns_consumption client now _ _ _ dl Hl)].
    intros dc w2 _. cbv beta.
    apply bind_ends. eapply returns_weaken; [|apply returns_price].
    intros dp w3 _. cbv beta zeta.
    apply bind_ends. eapply returns_weaken; [|apply returns_generation_forecast].
    intros dgf w4 _. cbv beta.
    apply bind_ends. eapply returns_weaken; [|apply returns_consumption_forecast].
    intros dcf w5 _. cbv beta.
    apply bind_ends, returns_emit.
    unfold mbind, M_bind, cache_clear, lift. cbn. repeat split. }
  destruct E as (E1 & E2 & E3 & E4 & E5). repeat (split; [assumption|]).
  intros now'. unfold get_generation_data.
  rewrite cache_data_runs_body by (left; rewrite E2; apply lookup_empty).
  unfold run_and_store. rewrite generation_body_run, Hq, Hr. reflexivity.
Qed.

End RefreshRun.

(** X12 with caches filled by an earlier run. *)
Lemma refresh_clears_every_cache_witness :
  query_generation healthy_client EIC_GR
    (start_time_of (mkDate 2025 6 1)) (end_time_of (mkDate 2025 6 1)) = Return gappy_frame /\
  iloc_last (dropna gappy_frame) = Return (1748728800, [Fin 320; Fin 90]) /\
  query_load healthy_client EIC_GR
    (start_time_of (mkDate 2025 6 1)) (end_time_of (mkDate 2025 6 1)) = Return gappy_frame /\
  generation_cache
    (snd (script healthy_client weather_down 60 (mkDate 2025 6 1) (mkDate 2025 6 1)
            (mkDate 2025 6 2) true
            (snd (script healthy_client weather_down 0 (mkDate 2025 6 1) (mkDate 2025 6 1)
                    (mkDate 2025 6 2) false no_cache)))) = ∅.
Proof.
  assert (Hq : query_generation healthy_client EIC_GR
                 (start_time_of (mkDate 2025 6 1)) (end_time_of (mkDate 2025 6 1))
               = Return gappy_frame) by reflexivity.
  assert (Hr : iloc_last (dropna gappy_frame) = Return (1748728800, [Fin 320; Fin 90]))
    by reflexivity.
  assert (Hl : query_load healthy_client EIC_GR
                 (start_time_of (mkDate 2025 6 1)) (end_time_of (mkDate 2025 6 1))
               = Return gappy_frame) by reflexivity.
  exact (conj Hq (conj Hr (conj Hl
           (proj1 (proj2 (refresh_clears_every_cache healthy_client weather_down 60
                            (mkDate 2025 6 1) (mkDate 2025 6 1) (mkDate 2025 6 2) _
                            gappy_frame gappy_frame _ Hq Hr Hl)))))).
Defined.

(** ** The pieces of the script below the fetches *)

Section QuietPieces.
Context {F : Type} `{Float64 F}.







End QuietPieces.


Section QuietScript.
Context {F : Type} `{Float64 F}.







End QuietScript.

(** ** The forecast queries of a run *)

Section ForecastQueries.
Context {F : Type} `{Float64 F}.



End ForecastQueries.


(** ** A complete run *)

Ltac script_steps :=
  repeat first
    [ script_step
    | match goal with
      | |- returns (if ?b then _ else _) _ _ => destruct b
      | |- True => exact I
      end ].

Section CompleteRun.
Context {F : Type} `{Float64 F}.

Lemma returns_sidebar (m : DerivedMetrics F) (w : world F) :
  bars_in_range m -> returns (sidebar_overview m) w (fun _ _ => True).
Proof.
  intros B.
  destruct (B (renewable_percentage m)) as (n1 & E1 & B1); [simpl; auto|].
  destruct (B (co2_emissions_percentage m)) as (n2 & E2 & B2); [simpl; auto|].
  destruct (B (lignite_percentage m)) as (n3 & E3 & B3); [simpl; auto|].
  destruct (B (natural_gas_percentage m)) as (n4 & E4 & B4); [simpl; auto|].
  unfold sidebar_overview.
  do 3 (script_step; script_step).
  script_step. apply (returns_lift _ n1); [exact E1|].
  script_step. apply returns_st_progress; [exact B1|]. tidy_world.
  script_step. script_step.
  script_step. apply (returns_lift _ n2); [exact E2|].
  script_step. apply returns_st_progress; [exact B2|]. tidy_world.
  script_step. script_step.
  script_step. apply (returns_lift _ n3); [exact E3|].
  script_step. apply returns_st_progress; [exact B3|]. tidy_world.
  script_step. script_step.
  script_step. apply (returns_lift _ n4); [exact E4|].
  apply returns_st_progress; [exact B4|]. exact I.
Qed.

Lemma returns_headline (m : DerivedMetrics F) (latest_price : option F) (w : world F) :
  returns (headline_metrics m latest_price) w (fun _ _ => True).
Proof. unfold headline_metrics. script_steps. Qed.

Lemma returns_tab_live (m : DerivedMetrics F) (w : world F) :
  returns (tab_live m) w (fun _ _ => True).
Proof. unfold tab_live. script_steps. Qed.

(** A scan that has settled on an entry stays settled. *)
Lemma scan_settled (better : F -> F -> bool) (l : list (Timestamp * F)) :
  forall b, exists b',
    fold_left (fun best r =>
                 match best with
                 | None => Some r
                 | Some b => if better (snd b) (snd r) then Some r else Some b
                 end) l (Some b) = Some b'.
Proof.
  induction l as [|x l IH]; intros b; cbn [fold_left]; [now exists b|].
  destruct (better (snd b) (snd x)); apply IH.
Qed.

Lemma extreme_of_value (better : F -> F -> bool) (series : list (Timestamp * F)) :
  (exists r, In r series /\ isna (snd r) = false) ->
  exists b, extreme better series = Some b.
Proof.
  intros (r & Hin & Hr). unfold extreme.
  destruct (List.filter (fun r => negb (isna (snd r))) series) as [|x l] eqn:E.
  - assert (Hf : In r (List.filter (fun r => negb (isna (snd r))) series))
      by (apply filter_In; split; [exact Hin | now rewrite Hr]).
    rewrite E in Hf. contradiction.
  - cbn [fold_left]. apply scan_settled.
Qed.

Lemma idx_of_value (df : DataFrame F) :
  has_value df ->
  (exists t, idxmax (first_column df) = Return t) /\
  (exists t, idxmin (first_column df) = Return t).
Proof.
  intros Hv. unfold idxmax, idxmin. split.
  - destruct (extreme_of_value (fun best x => fltb best x) _ Hv) as (b & ->). now exists (fst b).
  - destruct (extreme_of_value (fun best x => fltb x best) _ Hv) as (b & ->). now exists (fst b).
Qed.

Lemma returns_tab_trends (dc dp : DataFrame F) (w : world F) :
  (empty dc = true \/ has_value dc) ->
  (empty dp = true \/ has_value dp) ->
  returns (tab_trends dc dp) w (fun _ _ => True).
Proof.
  intros Hc Hp. unfold tab_trends. cbv zeta.
  script_step. script_step. script_step.
  destruct (empty dc) eqn:Ec; cbn [negb].
  - script_step.
    destruct (empty dp) eqn:Ep; cbn [negb]; [script_steps|].
    destruct Hp as [Hp | Hp]; [discriminate|].
    destruct (idx_of_value dp Hp) as ((t1 & E1) & (t2 & E2)).
    script_step. apply (returns_lift _ t1 _ _ E1).
    script_step. apply (returns_lift _ t2 _ _ E2).
    script_steps.
  - destruct Hc as [Hc | Hc]; [discriminate|].
    destruct (idx_of_value dc Hc) as ((t1 & E1) & (t2 & E2)).
    script_step. apply (returns_lift _ t1 _ _ E1).
    script_step. apply (returns_lift _ t2 _ _ E2).
    do 2 (script_step; script_step). script_step.
    destruct (empty dp) eqn:Ep; cbn [negb]; [script_steps|].
    destruct Hp as [Hp | Hp]; [discriminate|].
    destruct (idx_of_value dp Hp) as ((t3 & E3) & (t4 & E4)).
    script_step. apply (returns_lift _ t3 _ _ E3).
    script_step. apply (returns_lift _ t4 _ _ E4).
    script_steps.
Qed.

Lemma returns_tab_map (OWM : Q -> Q -> result weather_data) (w : world F) :
  returns (tab_map OWM) w (fun _ _ => True).
Proof. unfold returns. rewrite tab_map_page. eexists _, _. split; [reflexivity | exact I]. Qed.

Lemma returns_tab_forecasts (dgf dcf : DataFrame F) (w : world F) :
  returns (tab_forecasts dgf dcf) w (fun _ _ => True).
Proof. unfold tab_forecasts. script_steps. Qed.

(** X13. A run without the refresh button goes through the whole
    script, down to the forecast tab, without raising, whenever the
    generation and load queries return, the generation frame has a
    complete row, the four percentages of the sidebar convert to integers
    between 0 and 100, and the load frame and the price series, unless
    empty, hold at least one value; neither a failure of the price query,
    nor the forecast queries, nor the weather lookups can stop it.  This
    holds for any arithmetic on the numbers, binary64 included. *)
Theorem script_runs_to_its_end
        (client : EntsoeClient F) (OWM : Q -> Q -> result weather_data) (now : Z)
        (start_date end_date today : date) (w : world F)
        (df dl : DataFrame F) (r : Timestamp * list F) :
  query_generation client EIC_GR (start_time_of start_date) (end_time_of end_date)
    = Return df ->
  iloc_last (dropna df) = Return r ->
  generation_cache w !! (start_date, end_date) = None ->
  bars_in_range (derive_metrics (source_mw (columns df) r)) ->
  query_load client EIC_GR (start_time_of start_date) (end_time_of end_date)
    = Return dl ->
  consumption_cache w !! (start_date, end_date) = None ->
  (empty dl = true \/ has_value dl) ->
  (forall dp,
      query_day_ahead_prices client EIC_GR (start_time_of start_date)
        (end_time_of end_date) = Return dp ->
      empty dp = true \/ has_value dp) ->
  fst (script client OWM now start_date end_date today false w) = Return tt.
Proof.
  intros Hq Hr Hc Hb Hl Hcc Hdl Hdp.
  assert (R : returns (script client OWM now start_date end_date today false) w
                (fun _ _ => True)).
  { unfold script.
    script_step. script_step. script_step. script_step. script_step.
    eapply returns_weaken; [|exact (returns_generation client now _ _ _ df r Hq Hr)].
    intros [[dfg lv] dt] w1 (C1 & _ & _ & Hv). specialize (Hv Hc).
    injection Hv as -> -> ->. cbv beta iota. cbn [consumption_cache] in C1.
    script_step.
    eapply returns_weaken; [|exact (returns_consumption client now _ _ _ dl Hl)].
    intros dc w2 (_ & _ & Hv). rewrite C1 in Hv. specialize (Hv Hcc). subst dc.
    cbv beta.
    script_step. eapply returns_weaken; [|apply returns_price].
    intros dp w3 (_ & _ & Hp). cbv beta zeta.
    assert (Hp' : empty dp = true \/ has_value dp).
    { subst dp. destruct (query_day_ahead_prices _ _ _ _) as [dp|e]; [now apply Hdp|].
      left. reflexivity. }
    script_step. eapply returns_weaken; [|apply returns_generation_forecast].
    intros dgf w4 _. cbv beta.
    script_step. eapply returns_weaken; [|apply returns_consumption_forecast].
    intros dcf w5 _. cbv beta.
    script_step. script_step. script_step. script_step. script_step. script_step.
    script_step.
    eapply returns_weaken; [|exact (returns_sidebar _ _ Hb)]. intros _ w6 _. cbv beta.
    script_step. eapply returns_weaken; [|apply returns_headline].
    intros _ w7 _. cbv beta.
    script_step. eapply returns_weaken; [|apply returns_tab_live].
    intros _ w8 _. cbv beta.
    script_step. eapply returns_weaken; [|exact (returns_tab_trends _ _ _ Hdl Hp')].
    intros _ w9 _. cbv beta.
    script_step. eapply returns_weaken; [|apply returns_tab_map].
    intros _ w10 _. cbv beta.
    apply returns_tab_forecasts. }
  destruct (returns_fst _ _ _ R) as ([] & E & _). exact E.
Qed.

End CompleteRun.

(** X13 in binary64, with the healthy provider and the weather service
    down. *)
Lemma script_runs_to_its_end_witness :
  query_generation healthy_client_b64 EIC_GR
    (start_time_of (mkDate 2025 6 1)) (end_time_of (mkDate 2025 6 1))
    = Return gappy_frame_b64 /\
  iloc_last (dropna gappy_frame_b64) = Return (1748728800, [320%float; 90%float]) /\
  generation_cache (no_cache (F := float)) !! (mkDate 2025 6 1, mkDate 2025 6 1) = None /\
  bars_in_range
    (derive_metrics (source_mw (columns gappy_frame_b64)
                       (1748728800, [320%float; 90%float]))) /\
  query_load healthy_client_b64 EIC_GR
    (start_time_of (mkDate 2025 6 1)) (end_time_of (mkDate 2025 6 1))
    = Return gappy_frame_b64 /\
  consumption_cache (no_cache (F := float)) !! (mkDate 2025 6 1, mkDate 2025 6 1) = None /\
  has_value gappy_frame_b64 /\
  has_value price_frame_b64 /\
  fst (script healthy_client_b64 weather_down 0 (mkDate 2025 6 1) (mkDate 2025 6 1)
         (mkDate 2025 6 2) false no_cache) = Return tt.
Proof.
  assert (Hq : query_generation healthy_client_b64 EIC_GR
                 (start_time_of (mkDate 2025 6 1)) (end_time_of (mkDate 2025 6 1))
               = Return gappy_frame_b64) by reflexivity.
  assert (Hr : iloc_last (dropna gappy_frame_b64)
               = Return (1748728800, [320%float; 90%float])) by reflexivity.
  assert (Hc : generation_cache (no_cache (F := float))
               !! (mkDate 2025 6 1, mkDate 2025 6 1) = None) by reflexivity.
  assert (Hb : bars_in_range
                 (derive_metrics (source_mw (columns gappy_frame_b64)
                                    (1748728800, [320%float; 90%float])))).
  { intros x [<- | [<- | [<- | [<- | []]]]].
    - exists 78. split; [vm_compute; reflexivity | lia].
    - exists 8. split; [vm_compute; reflexivity | lia].
    - exists 0. split; [vm_compute; reflexivity | lia].
    - exists 21. split; [vm_compute; reflexivity | lia]. }
  assert (Hl : query_load healthy_client_b64 EIC_GR
                 (start_time_of (mkDate 2025 6 1)) (end_time_of (mkDate 2025 6 1))
               = Return gappy_frame_b64) by reflexivity.
  assert (Hcc : consumption_cache (no_cache (F := float))
                !! (mkDate 2025 6 1, mkDate 2025 6 1) = None) by reflexivity.
  assert (Hdl : has_value gappy_frame_b64).
  { exists (1748725200, 300%float). split; [left; reflexivity | reflexivity]. }
  assert (Hdp : has_value price_frame_b64).
  { exists (1748725200, 95%float). split; [left; reflexivity | reflexivity]. }
  refine (conj Hq (conj Hr (conj Hc (conj Hb (conj Hl (conj Hcc (conj Hdl (conj Hdp _)))))))).
  apply (script_runs_to_its_end healthy_client_b64 weather_down 0 (mkDate 2025 6 1)
           (mkDate 2025 6 1) (mkDate 2025 6 2) no_cache gappy_frame_b64 gappy_frame_b64 _
           Hq Hr Hc Hb Hl Hcc (or_intror Hdl)).
  intros dp E. injection E as <-. right. exact Hdp.
Defined.

(** ** The progress bars of the three shares, in binary64 *)

Section ShareBars.

Lemma share_whole_int (r t : Z) :
  0 <= r <= t -> 0 < t <= checked_total ->
  exists n : Z,
    py_int (fmul (fdiv (B64.of_Z r) (B64.of_Z t)) (B64.of_Z 100)) = Return n /\
    0 <= n <= 100.
Proof.
  intros Hr Ht.
  destruct (pair_checked t r Hr ltac:(lia)) as [_ S]. unfold share_ok in S.
  apply orb_true_iff in S. destruct S as [S | S].
  - apply Uint63.eqb_spec in S. apply (f_equal Uint63.to_Z) in S.
    rewrite to_of_Z in S by lia. change (Uint63.to_Z 0) with 0 in S. lia.
  - apply andb_true_iff in S. destruct S as [_ C].
    cbn [fmul fdiv py_int b64_float64]. rewrite !of_Z_nonneg by lia.
    exact (close_ok_int _ r t Hr Ht C).
Qed.

(** X14. In binary64, on a snapshot whose values are whole, non-negative
    numbers of MW with a positive total of at most 10000 MW, [int(...)]
    of the renewable, the lignite and the gas percentage (lines 232, 236
    and 238) is an integer between 0 and 100, and the progress bar takes
    it without raising. *)
Theorem share_bars_in_range (latest_value : list (string * Z)) (w : world float) :
  Forall (fun r => 0 <= snd r) latest_value ->
  0 < total_whole latest_value <= 10000 ->
  let m := derive_metrics (whole_mw latest_value) in
  forall x : float,
    In x [ renewable_percentage m; lignite_percentage m; natural_gas_percentage m ] ->
    exists n : Z,
      py_int x = Return n /\ 0 <= n <= 100 /\
      fst (st_progress n w) = Return tt /\
      ui (snd (st_progress n w)) = (ui w ++ [Progress n])%list.
Proof.
  intros Hn [Hpos Hmax] m x Hx.
  change 10000 with checked_total in Hmax.
  pose proof (series_sum_whole latest_value Hn Hmax) as Et.
  pose proof (mw_where_whole (isin renewable_generation) latest_value Hn Hmax) as Er.
  pose proof (mw_where_whole (is_label "Fossil Brown coal/Lignite") latest_value Hn Hmax)
    as El.
  pose proof (mw_where_whole (is_label "Fossil Gas") latest_value Hn Hmax) as Eg.
  destruct (whole_where_bounds (isin renewable_generation) latest_value Hn) as [_ Br].
  destruct (whole_where_bounds (is_label "Fossil Brown coal/Lignite") latest_value Hn)
    as [_ Bl].
  destruct (whole_where_bounds (is_label "Fossil Gas") latest_value Hn) as [_ Bg].
  assert (Hint : exists n : Z, py_int x = Return n /\ 0 <= n <= 100).
  { subst m. unfold derive_metrics in Hx.
    cbn [renewable_percentage lignite_percentage natural_gas_percentage] in Hx.
    rewrite Et, Er, El, Eg in Hx. change (of_int 100) with (B64.of_Z 100) in Hx.
    destruct Hx as [<- | [<- | [<- | []]]]; apply share_whole_int; lia. }
  destruct Hint as (n & En & Bn). exists n. split; [exact En|]. split; [exact Bn|].
  unfold st_progress. destruct Bn as [B0 B100].
  apply Z.leb_le in B0, B100. rewrite B0, B100. split; reflexivity.
Qed.

End ShareBars.

(** X14 on the spec's scenario: the renewable bar of 500 + 300 MW out of
    1000 MW. *)
Lemma share_bars_in_range_witness :
  Forall (fun r => 0 <= snd r)
         [ ("Wind Onshore", 500); ("Solar", 300);
           ("Fossil Brown coal/Lignite", 100); ("Fossil Gas", 100) ] /\
  0 < total_whole [ ("Wind Onshore", 500); ("Solar", 300);
                    ("Fossil Brown coal/Lignite", 100); ("Fossil Gas", 100) ] <= 10000 /\
  exists n : Z,
    py_int (renewable_percentage
              (derive_metrics
                 (whole_mw [ ("Wind Onshore", 500); ("Solar", 300);
                             ("Fossil Brown coal/Lignite", 100); ("Fossil Gas", 100) ])))
    = Return n /\ 0 <= n <= 100.
Proof.
  assert (Hn : Forall (fun r : string * Z => 0 <= snd r)
                 [ ("Wind Onshore", 500); ("Solar", 300);
                   ("Fossil Brown coal/Lignite", 100); ("Fossil Gas", 100) ])
    by (repeat constructor; simpl; lia).
  assert (Ht : 0 < total_whole [ ("Wind Onshore", 500); ("Solar", 300);
                                 ("Fossil Brown coal/Lignite", 100);
                                 ("Fossil Gas", 100) ] <= 10000)
    by (simpl; lia).
  refine (conj Hn (conj Ht _)).
  destruct (share_bars_in_range _ no_cache Hn Ht _ (or_introl eq_refl))
    as (n & En & Bn & _).
  exists n. split; [exact En | exact Bn].
Defined.

(** ** The trend tab on a column without values *)

Section TrendTab.
Context {F : Type} `{Float64 F}.

Lemma extreme_of_nothing (better : F -> F -> bool) (series : list (Timestamp * F)) :
  Forall (fun r => isna (snd r) = true) series -> extreme better series = None.
Proof.
  intros Hs. unfold extreme.
  replace (List.filter (fun r => negb (isna (snd r))) series)
    with (@nil (Timestamp * F)); [reflexivity|].
  induction Hs as [|r l Hr _ IH]; cbn [List.filter]; [reflexivity|].
  now rewrite Hr.
Qed.

Lemma idxmax_of_nothing (series : list (Timestamp * F)) :
  Forall (fun r => isna (snd r) = true) series ->
  idxmax series = Raise (AttributeError "'float' object has no attribute 'strftime'").
Proof. intros Hs. unfold idxmax. now rewrite (extreme_of_nothing _ _ Hs). Qed.

(** X15. When the load frame is not empty but its first column holds
    only missing values, the trend tab shows the generation chart and
    then raises where the time of the maximum is formatted (line 358):
    no max/min box, no demand curve, and nothing of the price section is
    shown. *)
Theorem trend_tab_needs_a_value
        (dataFrame_consumption dataFrame_price : DataFrame F) (w : world F) :
  empty dataFrame_consumption = false ->
  Forall (fun r => isna (snd r) = true) (first_column dataFrame_consumption) ->
  raises (fst (tab_trends dataFrame_consumption dataFrame_price w)) = true /\
  ui (snd (tab_trends dataFrame_consumption dataFrame_price w))
  = (ui w ++ [Chart "Evolution of Generation per Source (Last 24h)"])%list.
Proof.
  intros He Hs. unfold tab_trends. cbv zeta. rewrite He. cbn [negb].
  rewrite (idxmax_of_nothing _ Hs). split; reflexivity.
Qed.

End TrendTab.

(** X15 on a load frame of two rows without a value. *)
Lemma trend_tab_needs_a_value_witness :
  empty (mkFrame ["Actual Load"] [ (1748725200, [NaN]); (1748728800, [NaN]) ]) = false /\
  Forall (fun r : Timestamp * xq => isna (snd r) = true)
         (first_column (mkFrame ["Actual Load"]
                                [ (1748725200, [NaN]); (1748728800, [NaN]) ])) /\
  raises (fst (tab_trends (mkFrame ["Actual Load"]
                                   [ (1748725200, [NaN]); (1748728800, [NaN]) ])
                          price_frame no_cache)) = true.
Proof.
  assert (He : empty (mkFrame ["Actual Load"]
                              [ (1748725200, [NaN]); (1748728800, [NaN]) ]) = false)
    by reflexivity.
  assert (Hs : Forall (fun r : Timestamp * xq => isna (snd r) = true)
                 (first_column (mkFrame ["Actual Load"]
                                        [ (1748725200, [NaN]); (1748728800, [NaN]) ])))
    by (repeat constructor).
  exact (conj He (conj Hs
           (proj1 (trend_tab_needs_a_value _ price_frame no_cache He Hs)))).
Defined.
